(** * PR-dashboard: scoring and aggregation pipeline

    A shallow embedding of the three Python sources of the dashboard

      - [score.py]          (module [Score]),
      - [gitlab_client.py]  (module [Client]),
      - [app.py]            (module [App]),

    and the properties of the specification that are stated about them.

    Modelling conventions.

      - Python [int] values are [Z].  The numbers the scoring formulas
        compute with ([int] metrics mixed with configured weights and
        the literals [1.05] and [0.1]) are exact rationals [Q]: the
        arithmetic is the arithmetic of the formulas, binary64 rounding
        error is not part of the model.  [int(x)] and [round(x, n)] are
        the truncation and the round-half-to-even of Python.
      - A Python [str] is a [string], one element per character.
      - Exceptions are explicit: a computation that may raise returns a
        [result].
      - The remote API is a world that is threaded through every call of
        [_get]; the clock ([datetime.utcnow()]) and the timestamp parser
        ([dateutil.parser.parse]) are parameters. *)

From Stdlib Require Import ZArith QArith Qround Lia Lqa.
From Stdlib Require Import List String Ascii Bool DecimalString Permutation.
Import ListNotations.

Set Implicit Arguments.

(* ================================================================== *)
(** * Python values *)

Inductive exn : Type :=
| ZeroDivisionError
| HTTPError
| ParserError
| TypeError.

Inductive result (A : Type) : Type :=
| Ok (a : A)
| Raise (e : exn).

Arguments Ok {A} a.
Arguments Raise {A} e.

Definition rbind {A B : Type} (r : result A) (k : A -> result B) : result B :=
  match r with
  | Ok a => k a
  | Raise e => Raise e
  end.

Declare Scope result_scope.
Delimit Scope result_scope with result.
Notation "'let?' x ':=' r 'in' k" := (rbind r (fun x => k))
  (at level 10, x name, r at level 100, k at level 200) : result_scope.

Module Py.

(** [int(x)] of a number: truncation toward zero. *)
Definition int (x : Q) : Z :=
  if Qle_bool 0 x then Qfloor x else Qceiling x.

(** Rounding to the nearest integer, ties to the even one. *)
Definition round_half_even (x : Q) : Z :=
  let f := Qfloor x in
  match (x - inject_Z f ?= 1 # 2)%Q with
  | Lt => f
  | Gt => (f + 1)%Z
  | Eq => if Z.even f then f else (f + 1)%Z
  end.

(** [round(x, ndigits)]. *)
Definition round (x : Q) (ndigits : nat) : Q :=
  let scale := inject_Z (10 ^ Z.of_nat ndigits) in
  (inject_Z (round_half_even (x * scale)) / scale)%Q.

(** [x / y], true division. *)
Definition truediv (x y : Q) : result Q :=
  if Qeq_bool y 0 then Raise ZeroDivisionError else Ok (x / y)%Q.

(** [max(a, b)] on integers. *)
Definition max (a b : Z) : Z := if (a <? b)%Z then b else a.

(** Truthiness of a value that is a string or [None]. *)
Definition truthy_str (o : option string) : bool :=
  match o with
  | Some s => negb (String.eqb s "")
  | None => false
  end.

End Py.

(* ================================================================== *)
(** * Timestamps *)

Module Datetime.

(** A [datetime]: the reading of its calendar and clock fields, in
    microseconds from 1970-01-01T00:00:00, and the UTC offset in
    microseconds of its [tzinfo] ([None] for a naive value). *)
Record datetime : Type := {
  wall : Z;
  tzinfo : option Z
}.

(** [d.replace(tzinfo=None)]: the fields are kept, the zone is dropped. *)
Definition replace_tzinfo_None (d : datetime) : datetime :=
  {| wall := wall d; tzinfo := None |}.

(** [datetime.utcnow()] when the clock reads [clock]: a naive value. *)
Definition utcnow (clock : Z) : datetime :=
  {| wall := clock; tzinfo := None |}.

(** [a - b], a [timedelta] in microseconds.  Two naive values are
    subtracted field-wise, two aware ones as instants; mixing them
    raises. *)
Definition sub (a b : datetime) : result Z :=
  match tzinfo a, tzinfo b with
  | None, None => Ok (wall a - wall b)%Z
  | Some oa, Some ob => Ok ((wall a - oa) - (wall b - ob))%Z
  | _, _ => Raise TypeError
  end.

Definition us_per_day : Z := 86400000000.

(** [delta.days]: a [timedelta] is normalised with a non-negative
    remainder, so the day count is the floor. *)
Definition days (delta : Z) : Z := (delta / us_per_day)%Z.

End Datetime.

(* ================================================================== *)
(** * Payloads of the remote API *)

Record assignee : Type := {
  name : string
}.

Record merge_request : Type := {
  iid : Z;
  title : string;
  web_url : string;
  created_at : string;
  state : string;
  merged_at : option string;        (* absent or null: [None] *)
  closed_at : option string;        (* absent or null: [None] *)
  assignees : option (list assignee) (* absent: [None] *)
}.

Definition assignee_eq_dec (a b : assignee) : {a = b} + {a <> b}.
Proof.
  decide equality. apply string_dec.
Defined.

Definition option_eq_dec {A : Type}
    (dec : forall x y : A, {x = y} + {x <> y}) (a b : option A)
    : {a = b} + {a <> b}.
Proof.
  decide equality.
Defined.

Definition merge_request_eq_dec (a b : merge_request) : {a = b} + {a <> b}.
Proof.
  decide equality;
    auto using string_dec, Z.eq_dec, option_eq_dec, list_eq_dec,
               assignee_eq_dec.
Defined.

Record file_change : Type := {
  additions : Z;
  deletions : Z
}.

Record changes_payload : Type := {
  changes_count : option Z;         (* absent: [None] *)
  changes : list file_change
}.

Record note : Type := {
  system : option bool              (* absent: [None] *)
}.

(** The decoded body of a response, by the endpoint that serves it. *)
Inductive json : Type :=
| MergeRequests (l : list merge_request)
| Changes (c : changes_payload)
| Notes (l : list note).

Inductive param : Type :=
| PStr (s : string)
| PInt (n : Z)
| PBool (b : bool).

Definition params : Type := list (string * param).

(** What [session.get] hands back: a status code and a decoded body. *)
Record response : Type := {
  status_code : Z;
  body : json
}.

(** [str(n)] of an integer, as an f-string renders it. *)
Definition str_of_int (n : Z) : string := NilZero.string_of_int (Z.to_int n).

(* ================================================================== *)
(** * Calls against the remote world *)

Section Remote.

Variable world : Type.

(** A computation that talks to the remote API: it may raise, and it
    leaves the world in a new state. *)
Definition M (A : Type) : Type := world -> result A * world.

Definition ret {A : Type} (a : A) : M A := fun w => (Ok a, w).

Definition raise {A : Type} (e : exn) : M A := fun w => (Raise e, w).

Definition lift {A : Type} (r : result A) : M A := fun w => (r, w).

Definition bind {A B : Type} (m : M A) (k : A -> M B) : M B :=
  fun w =>
    match m w with
    | (Ok a, w') => k a w'
    | (Raise e, w') => (Raise e, w')
    end.

End Remote.

Arguments ret {world A} a.
Arguments raise {world A} e.
Arguments lift {world A} r.
Arguments bind {world A B} m k.

Declare Scope remote_scope.
Delimit Scope remote_scope with remote.
Notation "x <- m ;; k" := (bind m (fun x => k))
  (at level 61, m at next level, right associativity) : remote_scope.

(** The list calls of [states], made one after the other from the world
    [w], are answered with the lists [ls] and leave the world [w']. *)
Fixpoint answered {world : Type} (call : string -> M world json)
    (w : world) (states : list string) (ls : list (list merge_request))
    (w' : world) : Prop :=
  match states, ls with
  | [], [] => w = w'
  | state :: states', l :: ls' =>
      exists w1,
        call state w = (Ok (MergeRequests l), w1)
        /\ answered call w1 states' ls' w'
  | _, _ => False
  end.

(** [r.raise_for_status()]: a 4xx or 5xx status raises. *)
Definition raise_for_status (r : response) : result unit :=
  if ((400 <=? status_code r) && (status_code r <? 600))%Z
  then Raise HTTPError else Ok tt.

(** [s.rstrip("/")]. *)
Fixpoint rstrip_slash (s : string) : string :=
  match s with
  | EmptyString => EmptyString
  | String c rest =>
      match rstrip_slash rest with
      | EmptyString => if Ascii.eqb c "/" then EmptyString else String c EmptyString
      | rest' => String c rest'
      end
  end.

(* ================================================================== *)
(** * score.py *)

Module Score.

Open Scope Q_scope.
Open Scope result_scope.

Definition calculate_score (days_past lines_changed comments : Z)
    (days_threshold lines_changed_threshold comment_threshold : Q)
    : result Q :=
  let numerator :=
    (inject_Z days_past * days_threshold)
    + (inject_Z lines_changed * lines_changed_threshold) in
  let? per_threshold := Py.truediv (inject_Z comments) comment_threshold in
  let denominator := numerator + (per_threshold * (1 # 10) + 1) in
  let? quotient := Py.truediv numerator denominator in
  Ok (Py.round quotient 4).

(** The values of [numerator] and [denominator], and of the summand of
    [denominator] that the comments contribute, when no division
    raises. *)
Definition numerator_of (days_past lines_changed : Z)
    (days_threshold lines_changed_threshold : Q) : Q :=
  (inject_Z days_past * days_threshold)
  + (inject_Z lines_changed * lines_changed_threshold).

Definition damping_of (comments : Z) (comment_threshold : Q) : Q :=
  inject_Z comments / comment_threshold * (1 # 10) + 1.

Definition denominator_of (days_past lines_changed comments : Z)
    (days_threshold lines_changed_threshold comment_threshold : Q) : Q :=
  numerator_of days_past lines_changed
               days_threshold lines_changed_threshold
  + damping_of comments comment_threshold.

End Score.

(* ================================================================== *)
(** * gitlab_client.py *)

Module Client.

Section GitLabClient.

Variable world : Type.

(** [session.get(url, params=...)] with the session's
    [PRIVATE-TOKEN] header. *)
Variable session_get :
  string -> string -> params -> world -> response * world.

(** [dateutil.parser.parse]. *)
Variable parse : string -> result Datetime.datetime.

Open Scope string_scope.
Open Scope remote_scope.

Record GitLabClient : Type := {
  base_url : string;
  private_token : string
}.

Definition init (base_url pat : string) : GitLabClient :=
  {| base_url := rstrip_slash base_url; private_token := pat |}.

Definition _get (self : GitLabClient) (path : string) (ps : params)
    : M world json :=
  fun w =>
    let url := base_url self ++ "/api/v4" ++ path in
    let (resp, w') := session_get (private_token self) url ps w in
    match raise_for_status resp with
    | Ok _ => (Ok (body resp), w')
    | Raise e => (Raise e, w')
    end.

(** [mrs.extend(body)] for the body of a merge-request listing; a
    body of another shape is outside the data model and raises. *)
Definition extend (mrs : list merge_request) (j : json)
    : result (list merge_request) :=
  match j with
  | MergeRequests l => Ok (mrs ++ l)%list
  | _ => Raise TypeError
  end.

(** The list call of one state:
    [self._get(f"/projects/{project_id}/merge_requests",
               {"state": state, "per_page": 100})]. *)
Definition merge_requests_call (self : GitLabClient) (project_id : Z)
    (state : string) : M world json :=
  _get self
    ("/projects/" ++ str_of_int project_id ++ "/merge_requests")
    [("state", PStr state); ("per_page", PInt 100)].

(** The [for state in states] loop, from the accumulator [mrs]. *)
Fixpoint get_merge_requests_from (self : GitLabClient) (project_id : Z)
    (states : list string) (mrs : list merge_request)
    : M world (list merge_request) :=
  match states with
  | [] => ret mrs
  | state :: rest =>
      j <- merge_requests_call self project_id state ;;
      mrs' <- lift (extend mrs j) ;;
      get_merge_requests_from self project_id rest mrs'
  end.

Definition get_merge_requests (self : GitLabClient) (project_id : Z)
    (states : list string) : M world (list merge_request) :=
  get_merge_requests_from self project_id states [].

Definition sum (l : list Z) : Z := fold_left Z.add l 0%Z.

Definition get_diff_stats (self : GitLabClient) (project_id mr_iid : Z)
    : M world Z :=
  j <- _get self
         ("/projects/" ++ str_of_int project_id
          ++ "/merge_requests/" ++ str_of_int mr_iid ++ "/changes")
         [] ;;
  match j with
  | Changes c =>
      let additions := sum (map additions (changes c)) in
      let deletions := sum (map deletions (changes c)) in
      ret (additions + deletions)%Z
  | _ => raise TypeError
  end.

Definition is_user_note (n : note) : bool :=
  negb (match system n with Some b => b | None => false end).

Definition get_user_comments_count (self : GitLabClient)
    (project_id mr_iid : Z) : M world Z :=
  j <- _get self
         ("/projects/" ++ str_of_int project_id
          ++ "/merge_requests/" ++ str_of_int mr_iid ++ "/notes")
         [("per_page", PInt 100)] ;;
  match j with
  | Notes notes => ret (sum (map (fun _ => 1%Z) (filter is_user_note notes)))
  | _ => raise TypeError
  end.

(** [days_since(date_str)] when the clock reads [clock]. *)
Definition days_since (clock : Z) (date_str : string) : result Z :=
  (let? created := parse date_str in
   let? delta :=
     Datetime.sub (Datetime.utcnow clock)
                  (Datetime.replace_tzinfo_None created) in
   Ok (Datetime.days delta))%result.

End GitLabClient.

End Client.

(* ================================================================== *)
(** * app.py *)

Module App.

Open Scope Q_scope.

(** The [thresholds] object of [config.json], read into [th]. *)
Record thresholds : Type := {
  days_threshold : Q;
  lines_changed_threshold : Q;
  comment_threshold : Q
}.

(** The precondition of the pipeline: all weights strictly positive. *)
Definition positive (th : thresholds) : Prop :=
  0 < days_threshold th
  /\ 0 < lines_changed_threshold th
  /\ 0 < comment_threshold th.

Section Scoring.
Variable th : thresholds.

Definition calculate_score (days_past lines_changed comments : Z) : Z :=
  let lines_changed_for_denominator : Q := 0 in
  let days_past := if (days_past <? 1)%Z then 1%Z else days_past in
  let lines_changed_for_denominator :=
    if (lines_changed =? 1)%Z then 105 # 100
    else lines_changed_for_denominator in
  let numerator :=
    (inject_Z days_past * days_threshold th)
    + (inject_Z lines_changed * lines_changed_threshold th) in
  let denominator :=
    (inject_Z days_past * days_threshold th)
    * lines_changed_for_denominator
    + ((inject_Z comments * comment_threshold th) + 1) in
  if Qeq_bool denominator 0 then 0%Z
  else Py.int ((numerator / denominator) * 100).

(** The parts of [calculate_score] by name: [days_past] after the
    first [if], [lines_changed_for_denominator] after the second, and
    the values of [numerator] and [denominator]. *)
Definition clamp_days (days_past : Z) : Z :=
  if (days_past <? 1)%Z then 1%Z else days_past.

Definition denominator_factor (lines_changed : Z) : Q :=
  if (lines_changed =? 1)%Z then 105 # 100 else 0.

Definition numerator_of (days_past lines_changed : Z) : Q :=
  (inject_Z days_past * days_threshold th)
  + (inject_Z lines_changed * lines_changed_threshold th).

Definition denominator_of (days_past lines_changed comments : Z) : Q :=
  (inject_Z days_past * days_threshold th)
  * denominator_factor lines_changed
  + ((inject_Z comments * comment_threshold th) + 1).

End Scoring.

(** ** The client of [app.py] *)

Section GitLabClient.

Variable world : Type.
Variable session_get :
  string -> string -> params -> world -> response * world.

Open Scope string_scope.
Open Scope remote_scope.

Record GitLabClient : Type := {
  base_url : string;
  private_token : string
}.

Definition init (base_url pat : string) : GitLabClient :=
  {| base_url := rstrip_slash base_url; private_token := pat |}.

Definition _get (self : GitLabClient) (path : string) (ps : params)
    : M world json :=
  fun w =>
    let url := base_url self ++ "/api/v4" ++ path in
    let (r, w') := session_get (private_token self) url ps w in
    match raise_for_status r with
    | Ok _ => (Ok (body r), w')
    | Raise e => (Raise e, w')
    end.

Definition extend (mrs : list merge_request) (j : json)
    : result (list merge_request) :=
  match j with
  | MergeRequests l => Ok (mrs ++ l)%list
  | _ => Raise TypeError
  end.

(** The list call of one state:
    [self._get(f"/projects/{project_id}/merge_requests",
               {"state": state, "per_page": 100})]. *)
Definition merge_requests_call (self : GitLabClient) (project_id : Z)
    (state : string) : M world json :=
  _get self
    ("/projects/" ++ str_of_int project_id ++ "/merge_requests")
    [("state", PStr state); ("per_page", PInt 100)].

(** The [for state in states] loop, from the accumulator [mrs]. *)
Fixpoint get_merge_requests_from (self : GitLabClient) (project_id : Z)
    (states : list string) (mrs : list merge_request)
    : M world (list merge_request) :=
  match states with
  | [] => ret mrs
  | state :: rest =>
      j <- merge_requests_call self project_id state ;;
      mrs' <- lift (extend mrs j) ;;
      get_merge_requests_from self project_id rest mrs'
  end.

Definition get_merge_requests (self : GitLabClient) (project_id : Z)
    (states : list string) : M world (list merge_request) :=
  get_merge_requests_from self project_id states [].

Definition get_diff_stats (self : GitLabClient) (project_id mr_iid : Z)
    : M world Z :=
  j <- _get self
         ("/projects/" ++ str_of_int project_id
          ++ "/merge_requests/" ++ str_of_int mr_iid ++ "/changes")
         [] ;;
  match j with
  | Changes data =>
      ret (match changes_count data with Some n => n | None => 0%Z end)
  | _ => raise TypeError
  end.

Definition is_user_note (n : note) : bool :=
  negb (match system n with Some b => b | None => false end).

Definition get_user_comments_count (self : GitLabClient)
    (project_id mr_iid : Z) : M world Z :=
  j <- _get self
         ("/projects/" ++ str_of_int project_id
          ++ "/merge_requests/" ++ str_of_int mr_iid ++ "/notes")
         [("per_page", PInt 100)] ;;
  match j with
  | Notes notes =>
      ret (fold_left Z.add (map (fun _ => 1%Z) (filter is_user_note notes)) 0%Z)
  | _ => raise TypeError
  end.

End GitLabClient.

(** ** Age of a merge request *)

Section Logic.

Variable parse : string -> result Datetime.datetime.

Open Scope string_scope.
Open Scope result_scope.

(** [parse(s).replace(tzinfo=None)]. *)
Definition parse_naive (s : string) : result Datetime.datetime :=
  let? d := parse s in Ok (Datetime.replace_tzinfo_None d).

(** [calculate_days_past(mr)] when the clock reads [clock]. *)
Definition calculate_days_past (clock : Z) (mr : merge_request)
    : result Z :=
  let? created := parse_naive (created_at mr) in
  let? end_ :=
    if String.eqb (state mr) "opened" then Ok (Datetime.utcnow clock)
    else if Py.truthy_str (merged_at mr) then
      parse_naive (match merged_at mr with Some s => s | None => "" end)
    else if Py.truthy_str (closed_at mr) then
      parse_naive (match closed_at mr with Some s => s | None => "" end)
    else Ok (Datetime.utcnow clock) in
  let? delta := Datetime.sub end_ created in
  Ok (Py.max (Datetime.days delta) 0).

(** The value of [end] by name: the timestamp that closes the
    interval. *)
Definition end_of (clock : Z) (mr : merge_request)
    : result Datetime.datetime :=
  if String.eqb (state mr) "opened" then Ok (Datetime.utcnow clock)
  else if Py.truthy_str (merged_at mr) then
    parse_naive (match merged_at mr with Some s => s | None => "" end)
  else if Py.truthy_str (closed_at mr) then
    parse_naive (match closed_at mr with Some s => s | None => "" end)
  else Ok (Datetime.utcnow clock).

End Logic.

(** ** Stage "data": the rows of a fresh run *)

Record row : Type := {
  ID : Z;
  Title : string;
  URL : string;
  State : string;
  Assignee : string;
  Score : Z
}.

Section Rows.

Open Scope string_scope.

(** [title[:40] + "..." if len(title) > 40 else title]. *)
Definition row_title (title : string) : string :=
  if (40 <? String.length title)%nat
  then substring 0 40 title ++ "..."
  else title.

(** Truthiness of [mr.get("assignees")]. *)
Definition has_assignees (mr : merge_request) : bool :=
  match assignees mr with
  | Some (_ :: _) => true
  | _ => false
  end.

(** ["Assigned" if mr.get("assignees") else "Unassigned"]. *)
Definition row_state (mr : merge_request) : string :=
  if has_assignees mr then "Assigned" else "Unassigned".

(** [", ".join(a["name"] for a in mr.get("assignees", [])) or "-"]. *)
Definition row_assignee (mr : merge_request) : string :=
  let joined :=
    String.concat ", "
      (map name (match assignees mr with Some l => l | None => [] end)) in
  if String.eqb joined "" then "-" else joined.

Definition make_row (mr : merge_request) (score : Z) : row :=
  {| ID := iid mr;
     Title := row_title (title mr);
     URL := web_url mr;
     State := row_state mr;
     Assignee := row_assignee mr;
     Score := score |}.

(** The row of a merge request paired with its score. *)
Definition scored_row (p : merge_request * Z) : row :=
  make_row (fst p) (snd p).

End Rows.

Section Pipeline.

Variable world : Type.
Variable session_get :
  string -> string -> params -> world -> response * world.
Variable parse : string -> result Datetime.datetime.

(** What [datetime.utcnow()] reads in a world. *)
Variable clock : world -> Z.

Variable th : thresholds.

Open Scope remote_scope.

Definition utcnow_reading : M world Z := fun w => (Ok (clock w), w).

(** The ["Score"] entry of a row: its three arguments are evaluated
    left to right. *)
Definition score_of (client : GitLabClient) (project_id : Z)
    (mr : merge_request) : M world Z :=
  t <- utcnow_reading ;;
  days_past <- lift (calculate_days_past parse t mr) ;;
  lines_changed <- get_diff_stats session_get client project_id (iid mr) ;;
  comments <-
    get_user_comments_count session_get client project_id (iid mr) ;;
  ret (calculate_score th days_past lines_changed comments).

(** The [for mr in mrs] loop, from the accumulator [rows]. *)
Fixpoint rows_from (client : GitLabClient) (project_id : Z)
    (mrs : list merge_request) (rows : list row) : M world (list row) :=
  match mrs with
  | [] => ret rows
  | mr :: rest =>
      score <- score_of client project_id mr ;;
      rows_from client project_id rest (rows ++ [make_row mr score])
  end.

(** Stage "data" without the cache. *)
Definition fetch_rows (client : GitLabClient) (project_id : Z)
    (fetch_mr_states : list string) : M world (list row) :=
  mrs <- get_merge_requests session_get client project_id fetch_mr_states ;;
  rows_from client project_id mrs [].

End Pipeline.

End App.

(* ================================================================== *)
(** * Instances of the parameters

    The timestamp parser and the remote world are parameters of the
    model.  To run the model on concrete payloads they are instantiated
    here: the parser with a reader of the ISO-8601 timestamps the API
    produces, the world with a queue of scripted responses. *)

Module Iso8601.

Open Scope Z_scope.

Definition digit (c : ascii) : option Z :=
  let n := Z.of_nat (nat_of_ascii c) in
  if (48 <=? n) && (n <=? 57) then Some (n - 48) else None.

(** [n] decimal digits at the head of [cs]. *)
Fixpoint field (n : nat) (acc : Z) (cs : list ascii)
    : option (Z * list ascii) :=
  match n with
  | O => Some (acc, cs)
  | S n' =>
      match cs with
      | c :: cs' =>
          match digit c with
          | Some d => field n' (acc * 10 + d) cs'
          | None => None
          end
      | [] => None
      end
  end.

Definition expect (c : ascii) (cs : list ascii) : option (list ascii) :=
  match cs with
  | c' :: cs' => if Ascii.eqb c c' then Some cs' else None
  | [] => None
  end.

(** Days from 1970-01-01 to the civil date [y]-[m]-[d]. *)
Definition days_from_civil (y m d : Z) : Z :=
  let y' := if m <=? 2 then y - 1 else y in
  let era := y' / 400 in
  let yoe := y' - era * 400 in
  let mp := (m + 9) mod 12 in
  let doy := (153 * mp + 2) / 5 + d - 1 in
  let doe := yoe * 365 + yoe / 4 - yoe / 100 + doy in
  era * 146097 + doe - 719468.

(** The fraction of a second, up to microseconds: digits are read
    while [width] lasts and the rest is padded with zeros. *)
Fixpoint fraction (width : nat) (acc : Z) (cs : list ascii)
    : Z * list ascii :=
  match width with
  | O => (acc, cs)
  | S width' =>
      match cs with
      | c :: cs' =>
          match digit c with
          | Some d => fraction width' (acc * 10 + d) cs'
          | None => (acc * 10 ^ Z.of_nat width, cs)
          end
      | [] => (acc * 10 ^ Z.of_nat width, cs)
      end
  end.

Definition zone (cs : list ascii) : option (option Z) :=
  match cs with
  | [] => Some None
  | ["Z"%char] => Some (Some 0)
  | sign :: rest =>
      match field 2 0 rest with
      | Some (hh, rest1) =>
          match expect ":" rest1 with
          | Some rest2 =>
              match field 2 0 rest2 with
              | Some (mm, []) =>
                  let off := (hh * 60 + mm) * 60000000 in
                  if Ascii.eqb sign "+" then Some (Some off)
                  else if Ascii.eqb sign "-" then Some (Some (- off))
                  else None
              | _ => None
              end
          | None => None
          end
      | None => None
      end
  end.

Definition bindo {A B : Type} (o : option A) (k : A -> option B) : option B :=
  match o with
  | Some a => k a
  | None => None
  end.

Definition read (s : string) : option Datetime.datetime :=
  bindo (field 4 0 (list_ascii_of_string s)) (fun '(y, r) =>
  bindo (expect "-" r) (fun r =>
  bindo (field 2 0 r) (fun '(m, r) =>
  bindo (expect "-" r) (fun r =>
  bindo (field 2 0 r) (fun '(d, r) =>
  bindo (expect "T" r) (fun r =>
  bindo (field 2 0 r) (fun '(hh, r) =>
  bindo (expect ":" r) (fun r =>
  bindo (field 2 0 r) (fun '(mi, r) =>
  bindo (expect ":" r) (fun r =>
  bindo (field 2 0 r) (fun '(ss, r) =>
  let '(us, r) :=
    match expect "." r with
    | Some r' => fraction 6 0 r'
    | None => (0, r)
    end in
  bindo (zone r) (fun tz =>
  Some {| Datetime.wall :=
            (((days_from_civil y m d * 24 + hh) * 60 + mi) * 60 + ss)
            * 1000000 + us;
          Datetime.tzinfo := tz |})))))))))))).

Definition parse (s : string) : result Datetime.datetime :=
  match read s with
  | Some d => Ok d
  | None => Raise ParserError
  end.

End Iso8601.

Module Scripted.

(** A world is the current clock reading and the queue of responses
    the server will give; a call made on an empty queue is answered
    with a 404. *)
Record world : Type := {
  clock : Z;
  queue : list response
}.

Definition not_found : response :=
  {| status_code := 404; body := Notes [] |}.

Definition session_get (token url : string) (ps : params) (w : world)
    : response * world :=
  match queue w with
  | r :: rest => (r, {| clock := clock w; queue := rest |})
  | [] => (not_found, w)
  end.

Definition ok (j : json) : response := {| status_code := 200; body := j |}.

End Scripted.


(* ================================================================== *)
(** * Sample configurations and payloads *)

Module Sample.

Open Scope string_scope.
Open Scope Z_scope.

(** All weights equal to one. *)
Definition unit_weights : App.thresholds :=
  {| App.days_threshold := 1;
     App.lines_changed_threshold := 1;
     App.comment_threshold := 1 |}.


Definition alice : assignee := {| name := "Alice" |}.
Definition bob : assignee := {| name := "Bob" |}.
Definition nameless : assignee := {| name := "" |}.

(** The clock reading at 2024-03-01T00:00:00 UTC. *)
Definition clock_2024_03_01 : Z := 1709251200000000.

(** An open merge request whose creation timestamp is a day ahead of
    [clock_2024_03_01]. *)
Definition mr_ahead : merge_request :=
  {| iid := 7;
     title := "Bump dependencies";
     web_url := "https://gitlab.example.com/g/p/-/merge_requests/7";
     created_at := "2024-03-02T00:00:00.000Z";
     state := "opened";
     merged_at := None;
     closed_at := None;
     assignees := Some [] |}.

(** A merge request merged 9 days and 23 hours after its creation. *)
Definition mr_merged : merge_request :=
  {| iid := 3;
     title := "Fix the login redirect";
     web_url := "https://gitlab.example.com/g/p/-/merge_requests/3";
     created_at := "2024-02-01T08:00:00.000Z";
     state := "merged";
     merged_at := Some "2024-02-11T07:00:00.000Z";
     closed_at := None;
     assignees := Some [alice; bob] |}.

(** A merge request whose only assignee has an empty display name. *)
Definition mr_nameless : merge_request :=
  {| iid := 4;
     title := "Draft";
     web_url := "https://gitlab.example.com/g/p/-/merge_requests/4";
     created_at := "2024-02-20T10:00:00.000Z";
     state := "opened";
     merged_at := None;
     closed_at := None;
     assignees := Some [nameless] |}.

(** A merge request without assignees. *)
Definition mr_unassigned : merge_request :=
  {| iid := 5;
     title := "Update the changelog for the spring release candidate";
     web_url := "https://gitlab.example.com/g/p/-/merge_requests/5";
     created_at := "2024-02-25T10:00:00.000Z";
     state := "closed";
     merged_at := None;
     closed_at := Some "2024-02-26T10:00:00.000Z";
     assignees := None |}.

(** A server that answers two listings; the second repeats a merge
    request of the first. *)
Definition two_listings : Scripted.world :=
  {| Scripted.clock := clock_2024_03_01;
     Scripted.queue :=
       [Scripted.ok (MergeRequests [mr_merged; mr_unassigned]);
        Scripted.ok (MergeRequests [mr_unassigned])] |}.

Definition served_out : Scripted.world :=
  {| Scripted.clock := clock_2024_03_01; Scripted.queue := [] |}.

(** A server that lists one open merge request, then reports 12
    changed lines for it and three notes, one of them a system note. *)
Definition one_open_mr : Scripted.world :=
  {| Scripted.clock := clock_2024_03_01;
     Scripted.queue :=
       [Scripted.ok (MergeRequests [mr_nameless]);
        Scripted.ok (Changes {| changes_count := Some 12; changes := [] |});
        Scripted.ok (Notes [ {| system := Some true |};
                             {| system := None |};
                             {| system := Some false |} ])] |}.

Definition app_client : App.GitLabClient :=
  App.init "https://gitlab.example.com/" "token".

Definition client : Client.GitLabClient :=
  Client.init "https://gitlab.example.com/" "token".

End Sample.

(* ================================================================== *)
(** * app.py: selection lists, cache and stages

    The rest of [app.py].  A run of the script is a computation over the
    session state and the world; besides raising it can end in
    [st.rerun()].  What the widgets return in a run, the file system and
    the formatting of timestamps are parameters.  The bodies of the
    group, subgroup and project endpoints are lists of named entities;
    they are decoded on a channel of their own, [session_get_named]. *)

Module Named.

(** A group, subgroup or project as the script uses it. *)
Record t : Type := {
  name : string;
  id : Z
}.

End Named.

Module Dict.

(** A [dict] from [str] to [int]: one entry per key, in the order the
    keys were first inserted. *)
Definition t : Type := list (string * Z).

(** [d[k] = v]: an existing key keeps its place and takes the new
    value, a new key goes to the end. *)
Fixpoint set (d : t) (k : string) (v : Z) : t :=
  match d with
  | [] => [(k, v)]
  | (k', v') :: rest =>
      if String.eqb k k' then (k, v) :: rest else (k', v') :: set rest k v
  end.

(** [d[k]]; [None] stands for [KeyError]. *)
Fixpoint get (d : t) (k : string) : option Z :=
  match d with
  | [] => None
  | (k', v) :: rest => if String.eqb k k' then Some v else get rest k
  end.

(** [list(d.keys())]. *)
Definition keys (d : t) : list string := map fst d.

(** [{g["name"]: g["id"] for g in entities}]. *)
Definition of_named (entities : list Named.t) : t :=
  fold_left (fun d g => set d (Named.name g) (Named.id g)) entities [].

End Dict.

Module Dashboard.

Open Scope string_scope.

Inductive failure : Type :=
| PyExn (e : exn)
| KeyError
| AttributeError
| FileNotFoundError
| DecodeError
| ValueError.

(** How a piece of the script ends: normally, by raising, or in
    [st.rerun()]. *)
Inductive outcome (A : Type) : Type :=
| Done (a : A)
| Failed (f : failure)
| Rerun.

Arguments Done {A} a.
Arguments Failed {A} f.
Arguments Rerun {A}.

(** [st.session_state]: each attribute is present or not. *)
Record session : Type := {
  stage : option string;
  use_cached : option bool;
  project_id : option Z
}.

Definition empty_session : session :=
  {| stage := None; use_cached := None; project_id := None |}.

(** The place of a session in the order of the stages. *)
Definition rank (s : session) : nat :=
  match stage s with
  | None => 0
  | Some st =>
      if String.eqb st "select" then 1
      else if String.eqb st "data" then 2
      else 0
  end.

(** The attributes a stage relies on are present: [use_cached] from
    stage "select" on, [project_id] in stage "data". *)
Definition well_formed (s : session) : Prop :=
  match stage s with
  | None => True
  | Some st =>
      if String.eqb st "init" then True
      else if String.eqb st "select" then use_cached s <> None
      else if String.eqb st "data"
           then use_cached s <> None /\ project_id s <> None
      else False
  end.

(** The content of a cache file: a pickled table, or a JSON object with
    or without the key ["last_run"]. *)
Inductive file : Type :=
| Pickle (df : list App.row)
| Json (last_run : option string).

(** What the widgets of one run return. *)
Record widgets : Type := {
  radio : string -> list string -> string;
  button : string -> bool;
  selectbox : string -> list string -> option string
}.

(** [st.selectbox] returns one of the options it was given, and [None]
    only when it was given none. *)
Definition selects_from_options (ui : widgets) : Prop :=
  forall (label : string) (options : list string),
    match selectbox ui label options with
    | Some n => In n options
    | None => options = []
    end.

(** The [gitlab] and [thresholds] objects of [config.json]. *)
Record config : Type := {
  gl_base_url : string;
  gl_pat : string;
  fetch_mr_states : list string;
  th : App.thresholds
}.

(** The answer of a group, subgroup or project endpoint. *)
Record listing : Type := {
  listing_status : Z;
  entities : list Named.t
}.

Definition CACHE_DATA_FILE : string := "last_run_data.pkl".
Definition CACHE_META_FILE : string := "last_run_meta.json".

Section Script.

Variable world : Type.
Variable session_get : string -> string -> params -> world -> response * world.
Variable session_get_named :
  string -> string -> params -> world -> listing * world.
Variable parse : string -> result Datetime.datetime.
Variable clock : world -> Z.

(** The content of a file, if it exists, and the world after a file has
    been written. *)
Variable read_file : string -> world -> option file.
Variable write_file : string -> file -> world -> world.

(** [datetime.isoformat()] of a clock reading, and whether
    [datetime.fromisoformat] accepts a string. *)
Variable isoformat : Z -> string.
Variable fromisoformat_ok : string -> bool.

Variable cfg : config.

Definition Script (A : Type) : Type :=
  session -> world -> outcome A * session * world.

Definition sret {A : Type} (a : A) : Script A :=
  fun s w => (Done a, s, w).

Definition sfail {A : Type} (f : failure) : Script A :=
  fun s w => (Failed f, s, w).

Definition sbind {A B : Type} (m : Script A) (k : A -> Script B) : Script B :=
  fun s w =>
    match m s w with
    | (Done a, s', w') => k a s' w'
    | (Failed f, s', w') => (Failed f, s', w')
    | (Rerun, s', w') => (Rerun, s', w')
    end.

(** A call of the client inside the script. *)
Definition remote {A : Type} (m : M world A) : Script A :=
  fun s w =>
    match m w with
    | (Ok a, w') => (Done a, s, w')
    | (Raise e, w') => (Failed (PyExn e), s, w')
    end.

(** [st.rerun()]. *)
Definition rerun {A : Type} : Script A := fun s w => (Rerun, s, w).

(** Reading and writing the attributes of [st.session_state]. *)
Definition get_attr {A : Type} (attr : session -> option A) : Script A :=
  fun s w =>
    match attr s with
    | Some a => (Done a, s, w)
    | None => (Failed AttributeError, s, w)
    end.

Definition set_stage (v : string) : Script unit :=
  fun s w =>
    (Done tt,
     {| stage := Some v; use_cached := use_cached s;
        project_id := project_id s |}, w).

Definition set_use_cached (v : bool) : Script unit :=
  fun s w =>
    (Done tt,
     {| stage := stage s; use_cached := Some v;
        project_id := project_id s |}, w).

Definition set_project_id (v : Z) : Script unit :=
  fun s w =>
    (Done tt,
     {| stage := stage s; use_cached := use_cached s;
        project_id := Some v |}, w).

(** [d[k]] inside the script, where [k] is what a select box
    returned. *)
Definition lookup (d : Dict.t) (k : option string) : Script Z :=
  match k with
  | Some key =>
      match Dict.get d key with
      | Some v => sret v
      | None => sfail KeyError
      end
  | None => sfail KeyError
  end.

(** ** The cache *)

Definition load_cached_data : Script (list App.row) :=
  fun s w =>
    match read_file CACHE_DATA_FILE w with
    | Some (Pickle df) => (Done df, s, w)
    | Some (Json _) => (Failed DecodeError, s, w)
    | None => (Failed FileNotFoundError, s, w)
    end.

Definition save_cached_data (df : list App.row) : Script unit :=
  fun s w =>
    let w1 := write_file CACHE_DATA_FILE (Pickle df) w in
    let w2 :=
      write_file CACHE_META_FILE (Json (Some (isoformat (clock w1)))) w1 in
    (Done tt, s, w2).

Definition get_last_run_time : Script (option string) :=
  fun s w =>
    match read_file CACHE_META_FILE w with
    | None => (Done None, s, w)
    | Some (Json last_run) => (Done last_run, s, w)
    | Some (Pickle _) => (Failed DecodeError, s, w)
    end.

(** [os.path.exists(path)]. *)
Definition path_exists (path : string) (w : world) : bool :=
  match read_file path w with
  | Some _ => true
  | None => false
  end.

(** ** The named listings of the client *)

Definition client : App.GitLabClient :=
  App.init (gl_base_url cfg) (gl_pat cfg).

Definition _get_named (self : App.GitLabClient) (path : string)
    (ps : params) : M world (list Named.t) :=
  fun w =>
    let url := App.base_url self ++ "/api/v4" ++ path in
    let (r, w') := session_get_named (App.private_token self) url ps w in
    if ((400 <=? listing_status r) && (listing_status r <? 600))%Z
    then (Raise HTTPError, w')
    else (Ok (entities r), w').

Definition get_top_level_groups (self : App.GitLabClient)
    : M world (list Named.t) :=
  _get_named self "/groups"
    [("top_level_only", PBool true); ("per_page", PInt 100)].

Definition get_subgroups (self : App.GitLabClient) (group_id : Z)
    : M world (list Named.t) :=
  _get_named self ("/groups/" ++ str_of_int group_id ++ "/subgroups")
    [("per_page", PInt 100)].

Definition get_projects (self : App.GitLabClient) (group_id : Z)
    : M world (list Named.t) :=
  _get_named self ("/groups/" ++ str_of_int group_id ++ "/projects")
    [("per_page", PInt 100)].

(** ** The three stages *)

Declare Scope script_scope.
Delimit Scope script_scope with script.
Notation "x <~ m ;; k" := (sbind m (fun x => k))
  (at level 61, m at next level, right associativity) : script_scope.
Notation "m ;;; k" := (sbind m (fun _ => k))
  (at level 61, right associativity) : script_scope.
Open Scope script_scope.

(** [if "stage" not in st.session_state: st.session_state.stage = "init"]. *)
Definition ensure_stage : Script unit :=
  fun s w =>
    match stage s with
    | Some _ => (Done tt, s, w)
    | None => set_stage "init" s w
    end.

(** Truthiness of [last_run]. *)
Definition truthy (o : option string) : bool := Py.truthy_str o.

Definition stage_init (ui : widgets) : Script unit :=
  last_run <~ get_last_run_time ;;
  (fun s w =>
     if truthy last_run && path_exists CACHE_DATA_FILE w
     then
       (if fromisoformat_ok
             (match last_run with Some l => l | None => "" end)
        then
          set_use_cached
            (String.eqb
               (radio ui "Choose an option" ["Load previous data"; "Re-run"])
               "Load previous data") s w
        else (Failed ValueError, s, w))
     else set_use_cached false s w) ;;;
  if button ui "Continue"
  then set_stage "select" ;;; rerun
  else sret tt.

(** The end of stage "init" by name: what it leaves once [use_cached]
    is decided. *)
Definition init_end (ui : widgets) (s : session) (w : world) (cached : bool)
    : outcome unit * session * world :=
  if button ui "Continue"
  then (Rerun,
        {| stage := Some "select"; use_cached := Some cached;
           project_id := project_id s |}, w)
  else (Done tt,
        {| stage := stage s; use_cached := Some cached;
           project_id := project_id s |}, w).

(** [subgroup_id or group_id]. *)
Definition or_else (subgroup_id : option Z) (group_id : Z) : Z :=
  match subgroup_id with
  | Some i => if (i =? 0)%Z then group_id else i
  | None => group_id
  end.

Definition stage_select (ui : widgets) : Script unit :=
  groups <~ remote (get_top_level_groups client) ;;
  let group_map := Dict.of_named groups in
  let group_name := selectbox ui "Group" (Dict.keys group_map) in
  group_id <~ lookup group_map group_name ;;
  subgroups <~ remote (get_subgroups client group_id) ;;
  subgroup_id <~
    (match subgroups with
     | [] => sret None
     | _ :: _ =>
         let subgroup_map := Dict.of_named subgroups in
         let subgroup_name :=
           selectbox ui "Subgroup" (Dict.keys subgroup_map) in
         i <~ lookup subgroup_map subgroup_name ;; sret (Some i)
     end) ;;
  let target_group := or_else subgroup_id group_id in
  projects <~ remote (get_projects client target_group) ;;
  let project_map := Dict.of_named projects in
  let project_name := selectbox ui "Project" (Dict.keys project_map) in
  if button ui "Load Merge Requests"
  then
    i <~ lookup project_map project_name ;;
    set_project_id i ;;; set_stage "data" ;;; rerun
  else sret tt.

(** The fresh branch of stage "data": fetch, assemble, save. *)
Definition fresh_table : Script (list App.row) :=
  pid <~ get_attr project_id ;;
  df <~ remote (App.fetch_rows session_get parse clock (th cfg) client pid
                  (fetch_mr_states cfg)) ;;
  save_cached_data df ;;; sret df.

(** Stage "data"; the result is the table handed to [st.dataframe]. *)
Definition stage_data : Script (list App.row) :=
  cached <~ get_attr use_cached ;;
  if cached : bool then load_cached_data else fresh_table.

(** One run of the script, from the check of ["stage"] to the end.  The
    result is the table it displays, if it displays one. *)
Definition run (ui : widgets) : Script (option (list App.row)) :=
  ensure_stage ;;;
  (st <~ get_attr stage ;;
   if String.eqb st "init" then stage_init ui else sret tt) ;;;
  (st <~ get_attr stage ;;
   if String.eqb st "select" then stage_select ui else sret tt) ;;;
  (st <~ get_attr stage ;;
   if String.eqb st "data"
   then df <~ stage_data ;; sret (Some df)
   else sret None).

End Script.

End Dashboard.

(* ================================================================== *)
(** * A world with a disk

    An instance of the parameters of [Dashboard]: the clock, the files
    by name, and the answers the server will give on each of its two
    channels. *)

Module Disk.

Open Scope string_scope.

Record world : Type := {
  time : Z;
  files : list (string * Dashboard.file);
  responses : list response;
  listings : list Dashboard.listing
}.

Definition clock (w : world) : Z := time w.

Fixpoint find_file (path : string) (fs : list (string * Dashboard.file))
    : option Dashboard.file :=
  match fs with
  | [] => None
  | (p, f) :: rest => if String.eqb path p then Some f else find_file path rest
  end.

Definition read_file (path : string) (w : world) : option Dashboard.file :=
  find_file path (files w).

Definition write_file (path : string) (f : Dashboard.file) (w : world)
    : world :=
  {| time := time w;
     files := (path, f) :: files w;
     responses := responses w;
     listings := listings w |}.

Definition session_get (token url : string) (ps : params) (w : world)
    : response * world :=
  match responses w with
  | r :: rest =>
      (r, {| time := time w; files := files w; responses := rest;
             listings := listings w |})
  | [] => (Scripted.not_found, w)
  end.

Definition session_get_named (token url : string) (ps : params) (w : world)
    : Dashboard.listing * world :=
  match listings w with
  | r :: rest =>
      (r, {| time := time w; files := files w; responses := responses w;
             listings := rest |})
  | [] =>
      ({| Dashboard.listing_status := 404; Dashboard.entities := [] |}, w)
  end.

(** The civil date of a day count from 1970-01-01. *)
Definition civil_from_days (days : Z) : Z * Z * Z :=
  let z := (days + 719468)%Z in
  let era := (z / 146097)%Z in
  let doe := (z - era * 146097)%Z in
  let yoe := ((doe - doe / 1460 + doe / 36524 - doe / 146096) / 365)%Z in
  let doy := (doe - (365 * yoe + yoe / 4 - yoe / 100))%Z in
  let mp := ((5 * doy + 2) / 153)%Z in
  let d := (doy - (153 * mp + 2) / 5 + 1)%Z in
  let m := (if mp <? 10 then mp + 3 else mp - 9)%Z in
  let y := (yoe + era * 400 + (if m <=? 2 then 1 else 0))%Z in
  (y, m, d).

(** A number in decimal, padded with zeros to [width] digits. *)
Definition padded (width : nat) (n : Z) : string :=
  let digits := str_of_int n in
  string_of_list_ascii
    (repeat "0"%char (width - String.length digits))
  ++ digits.

(** [isoformat()] of a naive clock reading in microseconds. *)
Definition isoformat (t : Z) : string :=
  let us := (t mod 1000000)%Z in
  let secs := (t / 1000000)%Z in
  let '(y, m, d) := civil_from_days (secs / 86400) in
  let sod := (secs mod 86400)%Z in
  padded 4 y ++ "-" ++ padded 2 m ++ "-" ++ padded 2 d ++ "T"
  ++ padded 2 (sod / 3600) ++ ":" ++ padded 2 (sod mod 3600 / 60)
  ++ ":" ++ padded 2 (sod mod 60)
  ++ (if (us =? 0)%Z then "" else "." ++ padded 6 us).

(** [fromisoformat] accepts what the reader of timestamps accepts. *)
Definition fromisoformat_ok (s : string) : bool :=
  match Iso8601.read s with
  | Some _ => true
  | None => false
  end.

End Disk.

(* ================================================================== *)
(** * Further sample worlds *)

Module Fixture.

Open Scope string_scope.
Open Scope Z_scope.

Definition server_error : response :=
  {| status_code := 500; body := Notes [] |}.

(** A server whose second answer is a 500; a third answer is ready
    behind it. *)
Definition failing_second : Scripted.world :=
  {| Scripted.clock := Sample.clock_2024_03_01;
     Scripted.queue :=
       [Scripted.ok (MergeRequests [Sample.mr_merged]);
        server_error;
        Scripted.ok (MergeRequests [Sample.mr_unassigned])] |}.

(** [failing_second] after its first answer, and after its second. *)
Definition failing_next : Scripted.world :=
  {| Scripted.clock := Sample.clock_2024_03_01;
     Scripted.queue :=
       [server_error;
        Scripted.ok (MergeRequests [Sample.mr_unassigned])] |}.

Definition failing_rest : Scripted.world :=
  {| Scripted.clock := Sample.clock_2024_03_01;
     Scripted.queue :=
       [Scripted.ok (MergeRequests [Sample.mr_unassigned])] |}.

(** Three notes: a system note, one without the flag, a user note. *)
Definition three_notes : list note :=
  [ {| system := Some true |}; {| system := None |};
    {| system := Some false |} ].

Definition notes_world : Scripted.world :=
  {| Scripted.clock := Sample.clock_2024_03_01;
     Scripted.queue := [Scripted.ok (Notes three_notes)] |}.

(** Two changed files, 3 + 4 and 10 + 0 lines, under a reported count
    of 2. *)
Definition two_files : changes_payload :=
  {| changes_count := Some 2;
     changes := [ {| additions := 3; deletions := 4 |};
                  {| additions := 10; deletions := 0 |} ] |}.


Definition changes_world : Scripted.world :=
  {| Scripted.clock := Sample.clock_2024_03_01;
     Scripted.queue := [Scripted.ok (Changes two_files)] |}.


(** A closed merge request that was never merged: closed one day and
    two hours after its creation. *)
Definition mr_closed : merge_request :=
  {| iid := 8;
     title := "Try another cache layout";
     web_url := "https://gitlab.example.com/g/p/-/merge_requests/8";
     created_at := "2024-02-25T10:00:00.000Z";
     state := "closed";
     merged_at := Some "";
     closed_at := Some "2024-02-26T12:00:00.000Z";
     assignees := Some [] |}.

(** A merge request that is not open and carries neither timestamp. *)
Definition mr_undated : merge_request :=
  {| iid := 9;
     title := "Locked discussion";
     web_url := "https://gitlab.example.com/g/p/-/merge_requests/9";
     created_at := "2024-02-20T10:00:00.000Z";
     state := "locked";
     merged_at := None;
     closed_at := None;
     assignees := None |}.

(** An open merge request created at 23:30 in a zone five hours behind
    UTC, that is at 04:30 UTC of the next day. *)
Definition mr_zoned : merge_request :=
  {| iid := 10;
     title := "Night shift";
     web_url := "https://gitlab.example.com/g/p/-/merge_requests/10";
     created_at := "2024-02-28T23:30:00-05:00";
     state := "opened";
     merged_at := None;
     closed_at := None;
     assignees := None |}.

(** An open merge request whose creation timestamp is not one. *)
Definition mr_undatable : merge_request :=
  {| iid := 11;
     title := "Imported";
     web_url := "https://gitlab.example.com/g/p/-/merge_requests/11";
     created_at := "yesterday";
     state := "opened";
     merged_at := None;
     closed_at := None;
     assignees := None |}.

(** A server ready to report on two merge requests, 12 lines and three
    notes each. *)
Definition two_reports : Scripted.world :=
  {| Scripted.clock := Sample.clock_2024_03_01;
     Scripted.queue :=
       [Scripted.ok (Changes {| changes_count := Some 12; changes := [] |});
        Scripted.ok (Notes three_notes);
        Scripted.ok (Changes {| changes_count := Some 12; changes := [] |});
        Scripted.ok (Notes three_notes)] |}.

(** [two_reports] after the first report. *)
Definition one_report : Scripted.world :=
  {| Scripted.clock := Sample.clock_2024_03_01;
     Scripted.queue :=
       [Scripted.ok (Changes {| changes_count := Some 12; changes := [] |});
        Scripted.ok (Notes three_notes)] |}.

(** A blank machine at 2024-03-01T00:00:00: no file, no answer
    ready. *)
Definition blank_disk : Disk.world :=
  {| Disk.time := Sample.clock_2024_03_01;
     Disk.files := [];
     Disk.responses := [];
     Disk.listings := [] |}.

(** A table of one row. *)
Definition one_row_table : list App.row :=
  [App.make_row Sample.mr_nameless 700].

(** Three groups; the first and the last share their name. *)
Definition three_groups : list Named.t :=
  [ {| Named.name := "platform"; Named.id := 11 |};
    {| Named.name := "tools"; Named.id := 12 |};
    {| Named.name := "platform"; Named.id := 13 |} ].

(** The clock reading at 2024-03-01T10:00:00 UTC. *)
Definition clock_2024_03_01_10h : Z := 1709287200000000.

(** Widgets left as they come up: every radio and select box on its
    first option, a select box without options on [None]; every button
    clicked. *)
Definition clicking : Dashboard.widgets :=
  {| Dashboard.radio := fun _ options => hd "" options;
     Dashboard.button := fun _ => true;
     Dashboard.selectbox := fun _ options => hd_error options |}.

(** The same widgets with no button clicked. *)
Definition idle : Dashboard.widgets :=
  {| Dashboard.radio := fun _ options => hd "" options;
     Dashboard.button := fun _ => false;
     Dashboard.selectbox := fun _ options => hd_error options |}.

Definition sample_config : Dashboard.config :=
  {| Dashboard.gl_base_url := "https://gitlab.example.com/";
     Dashboard.gl_pat := "token";
     Dashboard.fetch_mr_states := ["opened"];
     Dashboard.th := Sample.unit_weights |}.

(** A machine at 2024-03-01T10:00:00 that holds the cache of a run made
    ten hours before. *)
Definition cached_disk : Disk.world :=
  {| Disk.time := clock_2024_03_01_10h;
     Disk.files :=
       [(Dashboard.CACHE_META_FILE,
         Dashboard.Json (Some "2024-03-01T00:00:00"));
        (Dashboard.CACHE_DATA_FILE, Dashboard.Pickle one_row_table)];
     Disk.responses := [];
     Disk.listings := [] |}.

(** A blank machine whose server is ready for a fresh run over one open
    merge request. *)
Definition fresh_disk : Disk.world :=
  {| Disk.time := Sample.clock_2024_03_01;
     Disk.files := [];
     Disk.responses := Scripted.queue Sample.one_open_mr;
     Disk.listings := [] |}.

(** Sessions in stage "data": one set to load the cache, one set to
    fetch project 42. *)
Definition cached_session : Dashboard.session :=
  {| Dashboard.stage := Some "data";
     Dashboard.use_cached := Some true;
     Dashboard.project_id := Some 42 |}.

Definition fresh_session : Dashboard.session :=
  {| Dashboard.stage := Some "data";
     Dashboard.use_cached := Some false;
     Dashboard.project_id := Some 42 |}.

(** A session in stage "select". *)
Definition select_session : Dashboard.session :=
  {| Dashboard.stage := Some "select";
     Dashboard.use_cached := Some false;
     Dashboard.project_id := None |}.

(** The session after stage "init" on a blank machine. *)
Definition after_init : Dashboard.session :=
  {| Dashboard.stage := Some "select";
     Dashboard.use_cached := Some false;
     Dashboard.project_id := None |}.

Definition listed (entities : list Named.t) : Dashboard.listing :=
  {| Dashboard.listing_status := 200; Dashboard.entities := entities |}.

(** The projects of group 13. *)
Definition two_projects : list Named.t :=
  [ {| Named.name := "dashboard"; Named.id := 42 |};
    {| Named.name := "docs"; Named.id := 43 |} ].

(** A server ready for the three listings of stage "select": three
    groups, no subgroup, two projects. *)
Definition select_disk : Disk.world :=
  {| Disk.time := Sample.clock_2024_03_01;
     Disk.files := [];
     Disk.responses := [];
     Disk.listings := [listed three_groups; listed []; listed two_projects] |}.

(** [select_disk] before its last answer. *)
Definition projects_disk : Disk.world :=
  {| Disk.time := Sample.clock_2024_03_01;
     Disk.files := [];
     Disk.responses := [];
     Disk.listings := [listed two_projects] |}.

(** A server whose token sees no group; a second answer is ready
    behind the empty listing. *)
Definition no_groups_disk : Disk.world :=
  {| Disk.time := Sample.clock_2024_03_01;
     Disk.files := [];
     Disk.responses := [];
     Disk.listings := [listed []; listed two_projects] |}.

End Fixture.

(* ================================================================== *)
(** * Facts about the Python primitives *)

Module PyFacts.

Open Scope Q_scope.

Lemma int_mono (x y : Q) : x <= y -> (Py.int x <= Py.int y)%Z.
Proof.
  intros Hxy. unfold Py.int.
  destruct (Qle_bool 0 x) eqn:Hx, (Qle_bool 0 y) eqn:Hy.
  - now apply Qfloor_resp_le.
  - apply Qle_bool_iff in Hx.
    assert (Hy' : ~ 0 <= y) by (rewrite <- Qle_bool_iff; congruence).
    exfalso. apply Hy'. lra.
  - apply Qle_bool_iff in Hy.
    assert (Hx' : ~ 0 <= x) by (rewrite <- Qle_bool_iff; congruence).
    apply Z.le_trans with 0%Z.
    + change 0%Z with (Qceiling 0). apply Qceiling_resp_le. lra.
    + change 0%Z with (Qfloor 0). now apply Qfloor_resp_le.
  - now apply Qceiling_resp_le.
Qed.

Lemma int_nonneg (x : Q) : 0 <= x -> (0 <= Py.int x)%Z.
Proof.
  intros Hx. change 0%Z with (Py.int 0). now apply int_mono.
Qed.




Lemma round_half_even_comp (x y : Q) :
  x == y -> Py.round_half_even x = Py.round_half_even y.
Proof.
  intros E. unfold Py.round_half_even.
  rewrite (Qfloor_comp _ _ E).
  assert (C : (x - inject_Z (Qfloor y) ?= 1 # 2)
              = (y - inject_Z (Qfloor y) ?= 1 # 2)).
  { apply Qcompare_comp; [now rewrite E | reflexivity]. }
  now rewrite C.
Qed.





Lemma max_spec (a b : Z) : Py.max a b = Z.max a b.
Proof.
  unfold Py.max. destruct (Z.ltb_spec a b); lia.
Qed.


End PyFacts.

(* ================================================================== *)
(** * Facts about rational quotients *)

Module QFacts.

Open Scope Q_scope.


Lemma div_nonneg (a b : Q) : 0 <= a -> 0 < b -> 0 <= a / b.
Proof.
  intros Ha Hb. apply Qle_shift_div_l; [assumption | lra].
Qed.


Lemma inject_Z_nonneg (z : Z) : (0 <= z)%Z -> 0 <= inject_Z z.
Proof.
  intros H. change 0 with (inject_Z 0). now rewrite <- Zle_Qle.
Qed.

Lemma inject_Z_mono (x y : Z) : (x <= y)%Z -> inject_Z x <= inject_Z y.
Proof.
  intros H. now rewrite <- Zle_Qle.
Qed.


End QFacts.

(* ================================================================== *)
(** * score.py: the score of Variant B *)

Module ScoreFacts.

Import Score.
Open Scope Q_scope.

Section Thresholds.

Variables days_threshold lines_changed_threshold comment_threshold : Q.
Hypothesis days_threshold_pos : 0 < days_threshold.
Hypothesis lines_changed_threshold_pos : 0 < lines_changed_threshold.
Hypothesis comment_threshold_pos : 0 < comment_threshold.

Local Abbreviation numerator d l :=
  (numerator_of d l days_threshold lines_changed_threshold).

Local Abbreviation damping c := (damping_of c comment_threshold).
Local Abbreviation denominator d l c :=
  (denominator_of d l c
     days_threshold lines_changed_threshold comment_threshold).










End Thresholds.

End ScoreFacts.

(* ================================================================== *)
(** * app.py: the score of Variant A *)

Module AppFacts.

Import App.
Open Scope Q_scope.

Lemma clamp_days_ge_1 (d : Z) : (1 <= clamp_days d)%Z.
Proof.
  unfold clamp_days. destruct (Z.ltb_spec d 1); lia.
Qed.


Lemma denominator_factor_nonneg (l : Z) : 0 <= denominator_factor l.
Proof.
  unfold denominator_factor. destruct (l =? 1)%Z; [discriminate | apply Qle_refl].
Qed.



(** [calculate_score] in terms of its named parts. *)
Lemma calculate_score_parts (th : thresholds) (d l c : Z) :
  calculate_score th d l c
  = if Qeq_bool (denominator_of th (clamp_days d) l c) 0 then 0%Z
    else Py.int (numerator_of th (clamp_days d) l
                 / denominator_of th (clamp_days d) l c * 100).
Proof. reflexivity. Qed.

Section Thresholds.

Variable th : thresholds.
Hypothesis days_threshold_pos : 0 < days_threshold th.
Hypothesis lines_changed_threshold_pos : 0 < lines_changed_threshold th.
Hypothesis comment_threshold_pos : 0 < comment_threshold th.

(** The age term [days_past * th["days_threshold"]] after the clamp. *)
Lemma age_term_pos (d : Z) : 0 < inject_Z (clamp_days d) * days_threshold th.
Proof.
  pose proof (QFacts.inject_Z_mono (clamp_days_ge_1 d)) as H.
  change (inject_Z 1) with 1 in H. nra.
Qed.


Lemma comment_term_ge_1 (c : Z) :
  (0 <= c)%Z -> 1 <= inject_Z c * comment_threshold th + 1.
Proof.
  intros Hc. pose proof (QFacts.inject_Z_nonneg Hc). nra.
Qed.


Lemma app_denominator_pos (d l c : Z) :
  (0 <= c)%Z -> 0 < denominator_of th (clamp_days d) l c.
Proof.
  intros Hc. unfold denominator_of.
  pose proof (age_term_pos d). pose proof (denominator_factor_nonneg l).
  pose proof (comment_term_ge_1 Hc). nra.
Qed.

Lemma app_numerator_nonneg (d l : Z) :
  (0 <= l)%Z -> 0 <= numerator_of th (clamp_days d) l.
Proof.
  intros Hl. unfold numerator_of.
  pose proof (age_term_pos d). pose proof (QFacts.inject_Z_nonneg Hl). nra.
Qed.

(** With non-negative comments the guard [denominator == 0] is false
    and the score is the truncated percentage. *)
Lemma calculate_score_eq (d l c : Z) :
  (0 <= c)%Z ->
  calculate_score th d l c
  = Py.int (numerator_of th (clamp_days d) l
            / denominator_of th (clamp_days d) l c * 100).
Proof.
  intros Hc. rewrite calculate_score_parts.
  destruct (Qeq_bool (denominator_of th (clamp_days d) l c) 0) eqn:E;
    [|reflexivity].
  apply Qeq_bool_iff in E. pose proof (app_denominator_pos d l Hc). lra.
Qed.






End Thresholds.

End AppFacts.

(* ================================================================== *)
(** * Properties of the scoring function *)

Module ScoringProperties.

Open Scope Q_scope.

(** Variant B with the weights of a [thresholds] record. *)
Local Abbreviation score_b th d l c :=
  (Score.calculate_score d l c
     (App.days_threshold th) (App.lines_changed_threshold th)
     (App.comment_threshold th)).

(** The worked example of the specification: 10 days, 50 lines and 2
    comments under unit thresholds score 0.9804 in Variant B. *)
Example variant_b_worked_example :
  Score.calculate_score 10 50 2 1 1 1 = Ok (9804 # 10000).
Proof. vm_compute. reflexivity. Qed.











End ScoringProperties.

(* ================================================================== *)
(** * Properties of the age in days *)

Module AgeProperties.

Import Datetime.
Open Scope Z_scope.
Open Scope string_scope.

Lemma truthy_str_some (s : string) :
  s <> "" -> Py.truthy_str (Some s) = true.
Proof.
  intros H. cbn. destruct (String.eqb_spec s ""); [contradiction | reflexivity].
Qed.

Lemma sub_naive (a b : datetime) :
  sub (replace_tzinfo_None a) (replace_tzinfo_None b) = Ok (wall a - wall b).
Proof. reflexivity. Qed.

Lemma sub_utcnow (clock : Z) (b : datetime) :
  sub (utcnow clock) (replace_tzinfo_None b) = Ok (clock - wall b).
Proof. reflexivity. Qed.

Section Parser.

Variable parse : string -> result datetime.

Lemma calculate_days_past_nonneg (clock : Z) (mr : merge_request) :
  match App.calculate_days_past parse clock mr with
  | Ok d => 0 <= d
  | Raise _ => True
  end.
Proof.
  unfold App.calculate_days_past, App.parse_naive.
  destruct (parse (created_at mr)) as [created | e]; cbn [rbind]; [|exact I].
  destruct (String.eqb (state mr) "opened");
    [ | destruct (Py.truthy_str (merged_at mr));
        [ destruct (parse _); cbn [rbind]; [|exact I]
        | destruct (Py.truthy_str (closed_at mr));
          [ destruct (parse _); cbn [rbind]; [|exact I] | ] ] ];
    cbn [rbind sub tzinfo replace_tzinfo_None utcnow];
    rewrite PyFacts.max_spec; lia.
Qed.

Lemma parse_naive_naive (s : string) (d : datetime) :
  App.parse_naive parse s = Ok d -> tzinfo d = None.
Proof.
  unfold App.parse_naive. destruct (parse s); cbn [rbind]; intros H;
    [injection H as <-; reflexivity | discriminate H].
Qed.

Lemma end_of_naive (clock : Z) (mr : merge_request) (e : datetime) :
  App.end_of parse clock mr = Ok e -> tzinfo e = None.
Proof.
  unfold App.end_of, App.parse_naive.
  destruct (String.eqb (state mr) "opened");
    [ | destruct (Py.truthy_str (merged_at mr));
        [ destruct (parse _); cbn [rbind]
        | destruct (Py.truthy_str (closed_at mr));
          [ destruct (parse _); cbn [rbind] | ] ] ];
    intros H; try discriminate H; injection H as <-; reflexivity.
Qed.

(** [calculate_days_past] in terms of its two timestamps. *)
Lemma calculate_days_past_parts (clock : Z) (mr : merge_request) :
  App.calculate_days_past parse clock mr
  = rbind (App.parse_naive parse (created_at mr)) (fun created =>
    rbind (App.end_of parse clock mr) (fun end_ =>
    Ok (Z.max (days (wall end_ - wall created)) 0))).
Proof.
  change (App.calculate_days_past parse clock mr)
    with (rbind (App.parse_naive parse (created_at mr)) (fun created =>
          rbind (App.end_of parse clock mr) (fun end_ =>
          rbind (sub end_ created) (fun delta =>
          Ok (Py.max (days delta) 0))))).
  destruct (App.parse_naive parse (created_at mr)) as [created | e] eqn:Ec;
    cbn [rbind]; [|reflexivity].
  destruct (App.end_of parse clock mr) as [end_ | e] eqn:E; cbn [rbind];
    [|reflexivity].
  unfold sub. rewrite (end_of_naive _ _ E), (parse_naive_naive _ Ec).
  cbn [rbind]. now rewrite PyFacts.max_spec.
Qed.

Lemma calculate_days_past_merged (clock : Z) (mr : merge_request) (s : string) :
  state mr <> "opened" -> merged_at mr = Some s -> s <> "" ->
  App.calculate_days_past parse clock mr
  = rbind (App.parse_naive parse (created_at mr)) (fun created =>
    rbind (App.parse_naive parse s) (fun merged =>
    Ok (Z.max (days (wall merged - wall created)) 0))).
Proof.
  intros Hstate Hmerged Hs. unfold App.calculate_days_past.
  destruct (String.eqb_spec (state mr) "opened") as [E | _]; [contradiction|].
  rewrite Hmerged, (truthy_str_some Hs).
  destruct (App.parse_naive parse (created_at mr)) as [created | e] eqn:Ec;
    cbn [rbind]; [|reflexivity].
  destruct (App.parse_naive parse s) as [merged | e] eqn:Em;
    cbn [rbind]; [|reflexivity].
  unfold App.parse_naive in Ec, Em.
  destruct (parse (created_at mr)); cbn [rbind] in Ec; [|discriminate].
  destruct (parse s); cbn [rbind] in Em; [|discriminate].
  injection Ec as <-. injection Em as <-.
  cbn [sub tzinfo replace_tzinfo_None rbind wall].
  now rewrite PyFacts.max_spec.
Qed.

End Parser.

(** The claim C3 as stated fails for [days_since] of
    [gitlab_client.py]: for a creation timestamp one day ahead of the
    clock it returns -1, where [calculate_days_past] of [app.py] returns
    0 for a merge request with the same timestamp. *)
Lemma days_since_negative :
  Client.days_since Iso8601.parse Sample.clock_2024_03_01
    (created_at Sample.mr_ahead) = Ok (-1)
  /\ App.calculate_days_past Iso8601.parse Sample.clock_2024_03_01
       Sample.mr_ahead = Ok 0.
Proof.
  split; vm_compute; reflexivity.
Qed.

(** C3, amended.  [calculate_days_past] of [app.py] never returns a
    negative number, for every merge request and every clock reading:
    its result is floored at 0.  [days_since] of [gitlab_client.py]
    applies no floor: it returns the whole-day difference between the
    clock and the creation timestamp as it is, which is negative when
    the creation timestamp is later than the clock. *)
Theorem age_floor_in_app_only
    (parse : string -> result datetime) (clock : Z)
    (mr : merge_request) (date_str : string) :
  App.calculate_days_past parse clock mr
  = rbind (App.parse_naive parse (created_at mr)) (fun created =>
    rbind (App.end_of parse clock mr) (fun end_ =>
    Ok (Z.max (days (wall end_ - wall created)) 0)))
  /\ match App.calculate_days_past parse clock mr with
     | Ok d => 0 <= d
     | Raise _ => True
     end
  /\ Client.days_since parse clock date_str
     = rbind (parse date_str) (fun created =>
         Ok (days (clock - wall created)))
  /\ (forall created,
        parse date_str = Ok created -> clock < wall created ->
        exists k, Client.days_since parse clock date_str = Ok k /\ k < 0).
Proof.
  assert (E : Client.days_since parse clock date_str
              = rbind (parse date_str) (fun created =>
                  Ok (days (clock - wall created)))).
  { unfold Client.days_since. destruct (parse date_str); reflexivity. }
  split; [|split; [|split]].
  - apply calculate_days_past_parts.
  - apply calculate_days_past_nonneg.
  - exact E.
  - intros created Hp Hlt. rewrite E, Hp. cbn [rbind].
    eexists. split; [reflexivity|].
    apply Z.div_lt_upper_bound; [reflexivity | lia].
Qed.

Lemma age_floor_in_app_only_witness :
  Iso8601.parse (created_at Sample.mr_ahead)
  = Ok {| wall := 1709337600000000; tzinfo := Some 0 |}
  /\ Sample.clock_2024_03_01 < 1709337600000000
  /\ App.calculate_days_past Iso8601.parse Sample.clock_2024_03_01
       Sample.mr_ahead = Ok 0
  /\ exists k,
       Client.days_since Iso8601.parse Sample.clock_2024_03_01
         (created_at Sample.mr_ahead) = Ok k
       /\ k < 0.
Proof.
  assert (Hp : Iso8601.parse (created_at Sample.mr_ahead)
               = Ok {| wall := 1709337600000000; tzinfo := Some 0 |})
    by (vm_compute; reflexivity).
  assert (Hlt : Sample.clock_2024_03_01 < 1709337600000000)
    by (vm_compute; reflexivity).
  destruct (age_floor_in_app_only Iso8601.parse Sample.clock_2024_03_01
              Sample.mr_ahead (created_at Sample.mr_ahead))
    as (E & _ & _ & N).
  split; [exact Hp|]. split; [exact Hlt|]. split.
  - rewrite E. vm_compute. reflexivity.
  - exact (N _ Hp Hlt).
Defined.

(** C6.  For every merge request whose state is not "opened" and whose
    merge timestamp is present, [calculate_days_past] returns the
    whole-day difference between the creation timestamp and the merge
    timestamp, floored at 0, and the result is the same for every
    clock reading. *)
Theorem merged_age_is_fixed
    (parse : string -> result datetime) (mr : merge_request) (s : string)
    (created merged : datetime) :
  state mr <> "opened" -> merged_at mr = Some s -> s <> "" ->
  parse (created_at mr) = Ok created -> parse s = Ok merged ->
  (forall clock,
     App.calculate_days_past parse clock mr
     = Ok (Z.max ((wall merged - wall created) / us_per_day) 0))
  /\ (forall clock clock',
        App.calculate_days_past parse clock mr
        = App.calculate_days_past parse clock' mr).
Proof.
  intros Hstate Hmerged Hs Hc Hm.
  assert (E : forall clock,
             App.calculate_days_past parse clock mr
             = Ok (Z.max ((wall merged - wall created) / us_per_day) 0)).
  { intros clock.
    rewrite (calculate_days_past_merged parse clock mr Hstate Hmerged Hs).
    unfold App.parse_naive. rewrite Hc, Hm. reflexivity. }
  split; [exact E|].
  intros clock clock'. now rewrite !E.
Qed.

Lemma merged_age_is_fixed_witness :
  state Sample.mr_merged <> "opened"
  /\ merged_at Sample.mr_merged = Some "2024-02-11T07:00:00.000Z"
  /\ "2024-02-11T07:00:00.000Z" <> ""
  /\ (forall clock,
        App.calculate_days_past Iso8601.parse clock Sample.mr_merged = Ok 9)
  /\ (forall clock clock',
        App.calculate_days_past Iso8601.parse clock Sample.mr_merged
        = App.calculate_days_past Iso8601.parse clock' Sample.mr_merged).
Proof.
  assert (H1 : state Sample.mr_merged <> "opened") by discriminate.
  assert (H2 : merged_at Sample.mr_merged = Some "2024-02-11T07:00:00.000Z")
    by reflexivity.
  assert (H3 : "2024-02-11T07:00:00.000Z" <> "") by discriminate.
  split; [exact H1|]. split; [exact H2|]. split; [exact H3|].
  refine (@merged_age_is_fixed Iso8601.parse Sample.mr_merged
            "2024-02-11T07:00:00.000Z"
            {| wall := 1706774400000000; tzinfo := Some 0 |}
            {| wall := 1707634800000000; tzinfo := Some 0 |}
            H1 H2 H3 _ _);
    vm_compute; reflexivity.
Defined.

End AgeProperties.

(* ================================================================== *)
(** * Properties of the merge-request listing *)

Module ListingProperties.

Open Scope list_scope.

Lemma count_occ_concat (x : merge_request) (ls : list (list merge_request)) :
  count_occ merge_request_eq_dec (List.concat ls) x
  = list_sum (map (fun l => count_occ merge_request_eq_dec l x) ls).
Proof.
  induction ls as [|l ls IH]; [reflexivity|].
  cbn [List.concat map list_sum]. now rewrite count_occ_app, IH.
Qed.

(** One turn of the loop whose list call is answered with [l]. *)
Ltac answered_turn IH H :=
  let w1 := fresh "w1" in
  let Hcall := fresh "Hcall" in
  let Hrest := fresh "Hrest" in
  destruct H as (w1 & Hcall & Hrest);
  unfold bind at 1; rewrite Hcall;
  unfold bind at 1; cbn [lift App.extend Client.extend];
  rewrite (IH _ _ _ _ Hrest);
  cbn [List.concat]; now rewrite app_assoc.

(** One turn of a loop that returned: its list call was answered. *)
Ltac returned_turn IH H call :=
  let j := fresh "j" in
  let e := fresh "e" in
  let w1 := fresh "w1" in
  let Hcall := fresh "Hcall" in
  let ls := fresh "ls" in
  let Hans := fresh "Hans" in
  let Hout := fresh "Hout" in
  unfold bind at 1 in H;
  destruct call as [[j | e] w1] eqn:Hcall; [|discriminate H];
  unfold bind at 1 in H;
  destruct j as [l | |];
  cbn [lift App.extend Client.extend] in H; try discriminate H;
  destruct (IH _ _ _ _ H) as (ls & Hans & Hout);
  exists (l :: ls); split;
  [ exists w1; split; [exact Hcall | exact Hans]
  | cbn [List.concat]; now rewrite app_assoc, Hout ].

Section World.

Variable world : Type.
Variable session_get : string -> string -> params -> world -> response * world.

Lemma app_loop_answered
    (self : App.GitLabClient) (project_id : Z) (states : list string) :
  forall (ls : list (list merge_request)) (mrs : list merge_request)
         (w w' : world),
    answered (App.merge_requests_call session_get self project_id)
             w states ls w' ->
    App.get_merge_requests_from session_get self project_id states mrs w
    = (Ok (mrs ++ List.concat ls), w').
Proof.
  induction states as [|state states IH]; intros ls mrs w w' H.
  - destruct ls; [|contradiction]. cbn in H. subst w'.
    cbn. now rewrite app_nil_r.
  - destruct ls as [|l ls]; [contradiction|].
    cbn [App.get_merge_requests_from].
    answered_turn IH H.
Qed.

Lemma app_loop_returned
    (self : App.GitLabClient) (project_id : Z) (states : list string) :
  forall (mrs out : list merge_request) (w w' : world),
    App.get_merge_requests_from session_get self project_id states mrs w
    = (Ok out, w') ->
    exists ls,
      answered (App.merge_requests_call session_get self project_id)
               w states ls w'
      /\ out = mrs ++ List.concat ls.
Proof.
  induction states as [|state states IH]; intros mrs out w w' H.
  - cbn in H. injection H as <- <-. exists []. split; [reflexivity|].
    cbn. now rewrite app_nil_r.
  - cbn [App.get_merge_requests_from] in H.
    returned_turn IH H
      (App.merge_requests_call session_get self project_id state w).
Qed.

Lemma client_loop_answered
    (self : Client.GitLabClient) (project_id : Z) (states : list string) :
  forall (ls : list (list merge_request)) (mrs : list merge_request)
         (w w' : world),
    answered (Client.merge_requests_call session_get self project_id)
             w states ls w' ->
    Client.get_merge_requests_from session_get self project_id states mrs w
    = (Ok (mrs ++ List.concat ls), w').
Proof.
  induction states as [|state states IH]; intros ls mrs w w' H.
  - destruct ls; [|contradiction]. cbn in H. subst w'.
    cbn. now rewrite app_nil_r.
  - destruct ls as [|l ls]; [contradiction|].
    cbn [Client.get_merge_requests_from].
    answered_turn IH H.
Qed.

Lemma client_loop_returned
    (self : Client.GitLabClient) (project_id : Z) (states : list string) :
  forall (mrs out : list merge_request) (w w' : world),
    Client.get_merge_requests_from session_get self project_id states mrs w
    = (Ok out, w') ->
    exists ls,
      answered (Client.merge_requests_call session_get self project_id)
               w states ls w'
      /\ out = mrs ++ List.concat ls.
Proof.
  induction states as [|state states IH]; intros mrs out w w' H.
  - cbn in H. injection H as <- <-. exists []. split; [reflexivity|].
    cbn. now rewrite app_nil_r.
  - cbn [Client.get_merge_requests_from] in H.
    returned_turn IH H
      (Client.merge_requests_call session_get self project_id state w).
Qed.

End World.

(** C7.  For every project id and every list of states,
    [get_merge_requests] (of [app.py] and of [gitlab_client.py]) returns
    exactly the concatenation, in the order of the states, of the lists
    the per-state list calls returned: it returns [out] if and only if
    the calls were answered with lists whose concatenation is [out].
    Nothing is deduplicated: an element occurs in the output as many
    times as it occurs in all the per-state lists together. *)
Theorem get_merge_requests_concatenates
    (world : Type)
    (session_get : string -> string -> params -> world -> response * world)
    (project_id : Z) (states : list string) (w w' : world)
    (out : list merge_request) :
  (forall self : App.GitLabClient,
     App.get_merge_requests session_get self project_id states w
     = (Ok out, w')
     <-> exists ls,
           answered (App.merge_requests_call session_get self project_id)
                    w states ls w'
           /\ out = List.concat ls)
  /\ (forall self : Client.GitLabClient,
        Client.get_merge_requests session_get self project_id states w
        = (Ok out, w')
        <-> exists ls,
              answered
                (Client.merge_requests_call session_get self project_id)
                w states ls w'
              /\ out = List.concat ls)
  /\ (forall (ls : list (list merge_request)) (x : merge_request),
        out = List.concat ls ->
        count_occ merge_request_eq_dec out x
        = list_sum (map (fun l => count_occ merge_request_eq_dec l x) ls)).
Proof.
  split; [|split].
  - intros self. unfold App.get_merge_requests. split.
    + intros H.
      exact (@app_loop_returned _ session_get self project_id states
               [] out w w' H).
    + intros (ls & H & ->).
      exact (@app_loop_answered _ session_get self project_id states
               ls [] w w' H).
  - intros self. unfold Client.get_merge_requests. split.
    + intros H.
      exact (@client_loop_returned _ session_get self project_id states
               [] out w w' H).
    + intros (ls & H & ->).
      exact (@client_loop_answered _ session_get self project_id states
               ls [] w w' H).
  - intros ls x ->. apply count_occ_concat.
Qed.

Lemma get_merge_requests_concatenates_witness :
  answered (App.merge_requests_call Scripted.session_get Sample.app_client 42)
    Sample.two_listings ["opened"; "closed"]%string
    [[Sample.mr_merged; Sample.mr_unassigned]; [Sample.mr_unassigned]]
    Sample.served_out
  /\ answered (Client.merge_requests_call Scripted.session_get Sample.client 42)
       Sample.two_listings ["opened"; "closed"]%string
       [[Sample.mr_merged; Sample.mr_unassigned]; [Sample.mr_unassigned]]
       Sample.served_out
  /\ App.get_merge_requests Scripted.session_get Sample.app_client 42
       ["opened"; "closed"]%string Sample.two_listings
     = (Ok [Sample.mr_merged; Sample.mr_unassigned; Sample.mr_unassigned],
        Sample.served_out)
  /\ Client.get_merge_requests Scripted.session_get Sample.client 42
       ["opened"; "closed"]%string Sample.two_listings
     = (Ok [Sample.mr_merged; Sample.mr_unassigned; Sample.mr_unassigned],
        Sample.served_out)
  /\ count_occ merge_request_eq_dec
       [Sample.mr_merged; Sample.mr_unassigned; Sample.mr_unassigned]
       Sample.mr_unassigned = 2%nat.
Proof.
  pose (ls := [[Sample.mr_merged; Sample.mr_unassigned];
               [Sample.mr_unassigned]]).
  assert (HA : answered
                 (App.merge_requests_call Scripted.session_get
                    Sample.app_client 42)
                 Sample.two_listings ["opened"; "closed"]%string ls
                 Sample.served_out).
  { eexists. split; [reflexivity|]. eexists. split; reflexivity. }
  assert (HC : answered
                 (Client.merge_requests_call Scripted.session_get
                    Sample.client 42)
                 Sample.two_listings ["opened"; "closed"]%string ls
                 Sample.served_out).
  { eexists. split; [reflexivity|]. eexists. split; reflexivity. }
  destruct (get_merge_requests_concatenates Scripted.session_get 42
              ["opened"; "closed"]%string
              Sample.two_listings Sample.served_out (List.concat ls))
    as (TA & TC & TN).
  split; [exact HA|]. split; [exact HC|].
  split; [apply TA; exists ls; split; [exact HA | reflexivity]|].
  split; [apply TC; exists ls; split; [exact HC | reflexivity]|].
  exact (TN ls Sample.mr_unassigned eq_refl).
Defined.

End ListingProperties.

(* ================================================================== *)
(** * Properties of the row assembly *)

Module RowProperties.

Import App.
Open Scope nat_scope.
Open Scope string_scope.

(** The first [n] characters of a string that has at least [n]. *)
Lemma substring_prefix (n : nat) :
  forall s : string,
    n <= String.length s ->
    String.length (substring 0 n s) = n
    /\ exists rest, s = substring 0 n s ++ rest.
Proof.
  induction n as [|n IH]; intros s H.
  - destruct s; (split; [reflexivity|]); eexists; reflexivity.
  - destruct s as [|c s]; [cbn in H; lia|].
    cbn in H. destruct (IH s ltac:(lia)) as (Hlen & rest & Hrest).
    cbn [substring String.length]. split; [now rewrite Hlen|].
    exists rest. cbn [String.append]. now rewrite <- Hrest.
Qed.

(** Joining with [", "] gives the empty string for no name and for one
    empty name only. *)
Lemma concat_empty (names : list string) :
  String.concat ", " names = "" <-> names = [] \/ names = [""].
Proof.
  split.
  - destruct names as [|x [|y names]]; cbn [String.concat].
    + now left.
    + intros ->. now right.
    + destruct x; cbn; discriminate.
  - intros [-> | ->]; reflexivity.
Qed.

Lemma row_assignee_joined (mr : merge_request) (l : list assignee) :
  assignees mr = Some l ->
  String.concat ", " (map name l) <> "" ->
  row_assignee mr = String.concat ", " (map name l).
Proof.
  intros E H. unfold row_assignee. rewrite E.
  destruct (String.eqb_spec (String.concat ", " (map name l)) "");
    [contradiction | reflexivity].
Qed.

Lemma row_assignee_dash (mr : merge_request) (l : list assignee) :
  assignees mr = Some l ->
  String.concat ", " (map name l) = "" ->
  row_assignee mr = "-".
Proof.
  intros E H. unfold row_assignee. now rewrite E, H.
Qed.

(** C8.  A title of at most 40 characters is emitted unchanged; a
    longer title is emitted as its first 40 characters followed by the
    marker "...". *)
Theorem title_truncation (mr : merge_request) (score : Z) :
  (String.length (title mr) <= 40 ->
   Title (make_row mr score) = title mr)
  /\ (40 < String.length (title mr) ->
      exists first rest,
        title mr = first ++ rest
        /\ String.length first = 40
        /\ Title (make_row mr score) = first ++ "...").
Proof.
  cbn [Title make_row]. unfold row_title. split; intros H.
  - destruct (Nat.ltb_spec 40 (String.length (title mr))); [lia | reflexivity].
  - destruct (Nat.ltb_spec 40 (String.length (title mr))); [|lia].
    destruct (@substring_prefix 40 (title mr) ltac:(lia)) as (Hlen & rest & Hrest).
    exists (substring 0 40 (title mr)), rest. auto.
Qed.

Lemma title_truncation_witness :
  (String.length (title Sample.mr_merged) <= 40
   /\ Title (make_row Sample.mr_merged 0) = "Fix the login redirect")
  /\ (40 < String.length (title Sample.mr_unassigned)
      /\ exists first rest,
           title Sample.mr_unassigned = first ++ rest
           /\ String.length first = 40
           /\ Title (make_row Sample.mr_unassigned 0) = first ++ "...").
Proof.
  assert (Hs : String.length (title Sample.mr_merged) <= 40)
    by (vm_compute; lia).
  assert (Hl : 40 < String.length (title Sample.mr_unassigned))
    by (vm_compute; lia).
  split; split.
  - exact Hs.
  - exact (proj1 (title_truncation Sample.mr_merged 0) Hs).
  - exact Hl.
  - exact (proj2 (title_truncation Sample.mr_unassigned 0) Hl).
Defined.

(** The claim C9 as stated fails for a merge request whose only
    assignee has an empty display name: the list is not empty, the
    joined names are the empty string, and the Assignee field is "-". *)
Lemma nameless_assignee_is_dash :
  assignees Sample.mr_nameless = Some [Sample.nameless]
  /\ String.concat ", " (map name [Sample.nameless]) = ""
  /\ Assignee (make_row Sample.mr_nameless 0) = "-"
  /\ Assignee (make_row Sample.mr_nameless 0)
     <> String.concat ", " (map name [Sample.nameless]).
Proof.
  repeat split; try reflexivity. discriminate.
Qed.

(** C9, amended.  For every merge request with a non-empty assignees
    list the State field is "Assigned", and the Assignee field is the
    display names joined by ", " unless the list is a single assignee
    with an empty display name (then it is "-"); for every merge request
    with no assignees the Assignee field is "-" and the State field is
    "Unassigned". *)
Theorem assignee_rendering (mr : merge_request) (score : Z) :
  (forall a l,
     assignees mr = Some (a :: l) ->
     State (make_row mr score) = "Assigned"
     /\ (~ (l = [] /\ name a = "") ->
         Assignee (make_row mr score)
         = String.concat ", " (map name (a :: l)))
     /\ (l = [] /\ name a = "" -> Assignee (make_row mr score) = "-"))
  /\ (assignees mr = None \/ assignees mr = Some [] ->
      Assignee (make_row mr score) = "-"
      /\ State (make_row mr score) = "Unassigned").
Proof.
  cbn [State Assignee make_row]. split.
  - intros a l E. split; [|split].
    + unfold row_state, has_assignees. now rewrite E.
    + intros H. apply (row_assignee_joined mr E).
      intros C. apply concat_empty in C. apply H.
      destruct C as [C | C]; [discriminate|].
      destruct l; [|discriminate]. injection C as C. auto.
    + intros [-> Hn]. apply (row_assignee_dash mr E).
      cbn. now rewrite Hn.
  - intros [E | E]; unfold row_assignee, row_state, has_assignees;
      rewrite E; split; reflexivity.
Qed.

Lemma assignee_rendering_witness :
  (assignees Sample.mr_merged = Some [Sample.alice; Sample.bob]
   /\ State (make_row Sample.mr_merged 0) = "Assigned"
   /\ Assignee (make_row Sample.mr_merged 0) = "Alice, Bob")
  /\ (assignees Sample.mr_unassigned = None
      /\ Assignee (make_row Sample.mr_unassigned 0) = "-"
      /\ State (make_row Sample.mr_unassigned 0) = "Unassigned").
Proof.
  assert (E : assignees Sample.mr_merged = Some [Sample.alice; Sample.bob])
    by reflexivity.
  assert (N : assignees Sample.mr_unassigned = None) by reflexivity.
  destruct (assignee_rendering Sample.mr_merged 0) as [T _].
  destruct (T _ _ E) as (S1 & S2 & _).
  destruct (assignee_rendering Sample.mr_unassigned 0) as [_ U].
  destruct (U (or_introl N)) as (U1 & U2).
  split; split; [exact E | split | exact N | split]; try assumption.
  apply S2. intros [C _]. discriminate C.
Defined.

(** C10.  The Assignee value "-" does not imply the State value
    "Unassigned": there is a merge request with a non-empty assignees
    list, every assignee of which has the empty display name, whose row
    has Assignee "-" and State "Assigned".  The fallback "-" is taken
    whenever the joined names are empty, while the State is "Assigned"
    exactly when the list is not empty. *)
Theorem dash_does_not_imply_unassigned :
  (exists mr l,
     assignees mr = Some l /\ l <> []
     /\ Forall (fun a => name a = "") l
     /\ forall score,
          Assignee (make_row mr score) = "-"
          /\ State (make_row mr score) = "Assigned")
  /\ (forall mr score,
        (String.concat ", "
           (map name (match assignees mr with Some l => l | None => [] end))
         = "" -> Assignee (make_row mr score) = "-")
        /\ (State (make_row mr score) = "Assigned"
            <-> exists a l, assignees mr = Some (a :: l))).
Proof.
  split.
  - exists Sample.mr_nameless, [Sample.nameless].
    split; [reflexivity|]. split; [discriminate|].
    split; [repeat constructor|]. intros score. split; reflexivity.
  - intros mr score. cbn [State Assignee make_row]. split.
    + intros H. unfold row_assignee. now rewrite H.
    + unfold row_state, has_assignees.
      destruct (assignees mr) as [[|a l]|]; split;
        try discriminate; try (intros (a' & l' & C); discriminate C).
      * intros _. now exists a, l.
      * reflexivity.
Qed.

End RowProperties.

(* ================================================================== *)
(** * The table of a fresh run *)

Module PipelineProperties.

Import App.
Open Scope list_scope.

Section Pipeline.

Variable world : Type.
Variable session_get : string -> string -> params -> world -> response * world.
Variable parse : string -> result Datetime.datetime.
Variable clock : world -> Z.
Variable th : thresholds.

(** Every row the loop appends is the row of the merge request at the
    same position, in the order of the listing. *)
Lemma rows_from_in_order
    (client : GitLabClient) (project_id : Z) (mrs : list merge_request) :
  forall (rows out : list row) (w w' : world),
    rows_from session_get parse clock th client project_id mrs rows w
    = (Ok out, w') ->
    exists scores,
      List.length scores = List.length mrs
      /\ out = rows ++ map scored_row (combine mrs scores).
Proof.
  induction mrs as [|mr mrs IH]; intros rows out w w' H.
  - cbn in H. injection H as <- <-. exists []. split; [reflexivity|].
    cbn. now rewrite app_nil_r.
  - cbn [rows_from] in H. unfold bind at 1 in H.
    destruct (score_of session_get parse clock th client project_id mr w)
      as [[score | e] w1]; [|discriminate H].
    destruct (IH _ _ _ _ H) as (scores & Hlen & Hout).
    exists (score :: scores). split; [cbn; now rewrite Hlen|].
    rewrite Hout, <- app_assoc. reflexivity.
Qed.

(** The table has one row per listed merge request, with the ids in
    the order of the listing. *)
Lemma fetch_rows_in_order
    (client : GitLabClient) (project_id : Z) (states : list string)
    (out : list row) (w w' : world) :
  fetch_rows session_get parse clock th client project_id states w
  = (Ok out, w') ->
  exists mrs w1,
    get_merge_requests session_get client project_id states w = (Ok mrs, w1)
    /\ map ID out = map iid mrs.
Proof.
  unfold fetch_rows, bind at 1. intros H.
  destruct (get_merge_requests session_get client project_id states w)
    as [[mrs | e] w1]; [|discriminate H].
  exists mrs, w1. split; [reflexivity|].
  destruct (rows_from_in_order _ _ _ _ _ H) as (scores & Hlen & ->).
  cbn [app]. clear H. revert scores Hlen.
  induction mrs as [|mr mrs IH]; intros [|s scores] Hlen;
    try discriminate Hlen; [reflexivity|].
  cbn. f_equal. apply IH. now injection Hlen.
Qed.

End Pipeline.

(** A fresh run against a scripted server: one open merge request, 9
    whole days old, 12 lines, 2 user comments, under unit thresholds. *)
Example fresh_run :
  fetch_rows Scripted.session_get Iso8601.parse Scripted.clock
    Sample.unit_weights Sample.app_client 42 ["opened"%string]
    Sample.one_open_mr
  = (Ok [ {| ID := 4;
             Title := "Draft";
             URL := "https://gitlab.example.com/g/p/-/merge_requests/4";
             State := "Assigned";
             Assignee := "-";
             Score := 700 |} ],
     Sample.served_out).
Proof. vm_compute. reflexivity. Qed.

End PipelineProperties.

(* ================================================================== *)
(** * The client: base URL and error behaviour *)

Module ClientProperties.

Open Scope string_scope.

(** [n] slashes. *)
Local Abbreviation slashes n := (string_of_list_ascii (repeat "/"%char n)).

Lemma append_empty_r (s : string) : s ++ "" = s.
Proof.
  induction s as [|c s IH]; [reflexivity|]. cbn. now rewrite IH.
Qed.

Lemma rstrip_slash_slashes (n : nat) : rstrip_slash (slashes n) = "".
Proof.
  induction n as [|n IH]; [reflexivity|].
  cbn [repeat string_of_list_ascii rstrip_slash]. now rewrite IH.
Qed.

Lemma rstrip_slash_decompose (s : string) :
  (exists n, s = rstrip_slash s ++ slashes n)
  /\ (forall t, rstrip_slash s <> t ++ "/").
Proof.
  induction s as [|c s [(n & Hn) Hend]].
  - split; [exists 0%nat; reflexivity|].
    intros [|a t]; discriminate.
  - cbn [rstrip_slash]. destruct (rstrip_slash s) as [|a r] eqn:E.
    + cbn [String.append] in Hn.
      destruct (Ascii.eqb_spec c "/") as [-> | Hc].
      * split; [exists (S n); cbn; now rewrite <- Hn|].
        intros [|b t]; discriminate.
      * split; [exists n; cbn; now rewrite <- Hn|].
        intros [|b t] H; cbn in H.
        -- injection H as H. contradiction.
        -- injection H as _ H. destruct t; discriminate H.
    + split; [exists n; cbn [String.append]; f_equal; exact Hn|].
      intros [|b t] H; cbn in H.
      * discriminate H.
      * injection H as _ H. exact (Hend t H).
Qed.

(** X1.  The constructor of both clients stores the base URL without
    its trailing slashes: the URL given is the stored one followed by
    slashes only, and the stored one does not end with a slash. *)
Theorem init_strips_trailing_slashes (url pat : string) :
  ((exists n, url = App.base_url (App.init url pat) ++ slashes n)
   /\ (forall t, App.base_url (App.init url pat) <> t ++ "/")
   /\ App.private_token (App.init url pat) = pat)
  /\ ((exists n, url = Client.base_url (Client.init url pat) ++ slashes n)
      /\ (forall t, Client.base_url (Client.init url pat) <> t ++ "/")
      /\ Client.private_token (Client.init url pat) = pat).
Proof.
  destruct (rstrip_slash_decompose url) as [D E].
  repeat split; assumption.
Qed.

Section World.

Variable world : Type.
Variable session_get : string -> string -> params -> world -> response * world.

(** A response with a 4xx or 5xx status makes [_get] raise. *)
Lemma app_get_raises (self : App.GitLabClient) (path : string) (ps : params)
    (w w' : world) (r : response) :
  session_get (App.private_token self)
    (App.base_url self ++ "/api/v4" ++ path) ps w = (r, w') ->
  (400 <= status_code r < 600)%Z ->
  App._get session_get self path ps w = (Raise HTTPError, w').
Proof.
  intros H S. unfold App._get. rewrite H. unfold raise_for_status.
  destruct (Z.leb_spec 400 (status_code r)); [|lia].
  destruct (Z.ltb_spec (status_code r) 600); [reflexivity | lia].
Qed.

Lemma client_get_raises (self : Client.GitLabClient) (path : string)
    (ps : params) (w w' : world) (r : response) :
  session_get (Client.private_token self)
    (Client.base_url self ++ "/api/v4" ++ path) ps w = (r, w') ->
  (400 <= status_code r < 600)%Z ->
  Client._get session_get self path ps w = (Raise HTTPError, w').
Proof.
  intros H S. unfold Client._get. rewrite H. unfold raise_for_status.
  destruct (Z.leb_spec 400 (status_code r)); [|lia].
  destruct (Z.ltb_spec (status_code r) 600); [reflexivity | lia].
Qed.

(** Listing [s1 ++ s2] is listing [s1] and then [s2], from the
    accumulator and the world the first listing leaves. *)
Lemma app_loop_app (self : App.GitLabClient) (project_id : Z)
    (s1 s2 : list string) :
  forall (mrs : list merge_request) (w : world),
    App.get_merge_requests_from session_get self project_id (s1 ++ s2) mrs w
    = bind (App.get_merge_requests_from session_get self project_id s1 mrs)
        (fun m =>
           App.get_merge_requests_from session_get self project_id s2 m) w.
Proof.
  induction s1 as [|state s1 IH]; intros mrs w; [reflexivity|].
  cbn [app App.get_merge_requests_from]. unfold bind, lift.
  destruct (App.merge_requests_call session_get self project_id state w)
    as [[j | e] w1]; [|reflexivity].
  destruct (App.extend mrs j) as [m | e]; [|reflexivity].
  exact (IH m w1).
Qed.

Lemma client_loop_app (self : Client.GitLabClient) (project_id : Z)
    (s1 s2 : list string) :
  forall (mrs : list merge_request) (w : world),
    Client.get_merge_requests_from session_get self project_id
      (s1 ++ s2) mrs w
    = bind (Client.get_merge_requests_from session_get self project_id s1 mrs)
        (fun m =>
           Client.get_merge_requests_from session_get self project_id s2 m) w.
Proof.
  induction s1 as [|state s1 IH]; intros mrs w; [reflexivity|].
  cbn [app Client.get_merge_requests_from]. unfold bind, lift.
  destruct (Client.merge_requests_call session_get self project_id state w)
    as [[j | e] w1]; [|reflexivity].
  destruct (Client.extend mrs j) as [m | e]; [|reflexivity].
  exact (IH m w1).
Qed.

End World.

(** X2.  [get_merge_requests] stops at the first state whose request is
    answered with a 4xx or 5xx status: it raises the HTTP error, returns
    nothing of what the earlier states listed, and the states after it
    are not requested (the world is the one the failing request
    left). *)
Theorem get_merge_requests_aborts_on_http_error
    (world : Type)
    (session_get : string -> string -> params -> world -> response * world)
    (project_id : Z) (pre post : list string) (state : string)
    (ls : list (list merge_request)) (w w1 w2 : world) (r : response) :
  (400 <= status_code r < 600)%Z ->
  (forall self : App.GitLabClient,
     answered (App.merge_requests_call session_get self project_id)
              w pre ls w1 ->
     session_get (App.private_token self)
       (App.base_url self ++ "/api/v4"
        ++ "/projects/" ++ str_of_int project_id ++ "/merge_requests")
       [("state", PStr state); ("per_page", PInt 100)] w1 = (r, w2) ->
     App.get_merge_requests session_get self project_id
       (pre ++ state :: post) w = (Raise HTTPError, w2))
  /\ (forall self : Client.GitLabClient,
        answered (Client.merge_requests_call session_get self project_id)
                 w pre ls w1 ->
        session_get (Client.private_token self)
          (Client.base_url self ++ "/api/v4"
           ++ "/projects/" ++ str_of_int project_id ++ "/merge_requests")
          [("state", PStr state); ("per_page", PInt 100)] w1 = (r, w2) ->
        Client.get_merge_requests session_get self project_id
          (pre ++ state :: post) w = (Raise HTTPError, w2)).
Proof.
  intros S. split; intros self A H.
  - unfold App.get_merge_requests. rewrite app_loop_app. unfold bind at 1.
    rewrite (@ListingProperties.app_loop_answered _ session_get self
               project_id pre ls [] w w1 A).
    cbn [App.get_merge_requests_from]. unfold bind at 1.
    unfold App.merge_requests_call.
    now rewrite (@app_get_raises _ session_get self _ _ w1 w2 r H S).
  - unfold Client.get_merge_requests. rewrite client_loop_app. unfold bind at 1.
    rewrite (@ListingProperties.client_loop_answered _ session_get self
               project_id pre ls [] w w1 A).
    cbn [Client.get_merge_requests_from]. unfold bind at 1.
    unfold Client.merge_requests_call.
    now rewrite (@client_get_raises _ session_get self _ _ w1 w2 r H S).
Qed.

Lemma get_merge_requests_aborts_on_http_error_witness :
  (400 <= status_code Fixture.server_error < 600)%Z
  /\ App.get_merge_requests Scripted.session_get Sample.app_client 42
       ["opened"; "closed"; "merged"] Fixture.failing_second
     = (Raise HTTPError, Fixture.failing_rest)
  /\ Client.get_merge_requests Scripted.session_get Sample.client 42
       ["opened"; "closed"; "merged"] Fixture.failing_second
     = (Raise HTTPError, Fixture.failing_rest).
Proof.
  assert (S : (400 <= status_code Fixture.server_error < 600)%Z)
    by (cbn; lia).
  destruct (@get_merge_requests_aborts_on_http_error _ Scripted.session_get
              42 ["opened"] ["merged"] "closed" [[Sample.mr_merged]]
              Fixture.failing_second Fixture.failing_next
              Fixture.failing_rest Fixture.server_error S) as [TA TC].
  split; [exact S|]. split.
  - apply (TA Sample.app_client).
    + eexists. split; reflexivity.
    + reflexivity.
  - apply (TC Sample.client).
    + eexists. split; reflexivity.
    + reflexivity.
Defined.

End ClientProperties.

(* ================================================================== *)
(** * The metrics read from the remote API *)

Module MetricProperties.

Open Scope Z_scope.
Open Scope string_scope.

Lemma fold_add_acc (l : list Z) (acc : Z) :
  fold_left Z.add l acc = acc + fold_left Z.add l 0.
Proof.
  revert acc. induction l as [|x l IH]; intros acc; cbn; [lia|].
  rewrite (IH (acc + x)), (IH x). lia.
Qed.

Lemma sum_cons (x : Z) (l : list Z) :
  Client.sum (x :: l) = x + Client.sum l.
Proof.
  unfold Client.sum. cbn. now rewrite fold_add_acc.
Qed.

Lemma sum_ones {A : Type} (l : list A) :
  fold_left Z.add (map (fun _ => 1) l) 0 = Z.of_nat (List.length l).
Proof.
  induction l as [|x l IH]; [reflexivity|].
  cbn [map List.length]. change (fold_left Z.add (1 :: map (fun _ => 1) l) 0)
    with (Client.sum (1 :: map (fun _ : A => 1) l)).
  rewrite sum_cons. unfold Client.sum. rewrite IH. lia.
Qed.

Lemma sum_pointwise (files : list file_change) :
  Client.sum (map additions files) + Client.sum (map deletions files)
  = Client.sum (map (fun f => additions f + deletions f) files).
Proof.
  induction files as [|f files IH]; [reflexivity|].
  cbn [map]. rewrite !sum_cons. lia.
Qed.

Lemma sum_nonneg (l : list Z) : Forall (fun x => 0 <= x) l -> 0 <= Client.sum l.
Proof.
  induction 1 as [|x l Hx _ IH]; [reflexivity|]. rewrite sum_cons. lia.
Qed.

Lemma sum_permutation (l l' : list Z) :
  Permutation l l' -> Client.sum l = Client.sum l'.
Proof.
  induction 1 as [| x l l' _ IH | x y l | l l' l'' _ IH1 _ IH2].
  - reflexivity.
  - rewrite !sum_cons. lia.
  - rewrite !sum_cons. lia.
  - congruence.
Qed.

(** A note counts unless its [system] flag is present and true. *)
Local Abbreviation user_note :=
  (fun n : note => match system n with Some true => false | _ => true end).

Lemma is_user_note_spec (notes : list note) :
  filter App.is_user_note notes = filter user_note notes
  /\ filter Client.is_user_note notes = filter user_note notes.
Proof.
  split; apply filter_ext; intros [[[|]|]]; reflexivity.
Qed.

(** X3.  [get_user_comments_count] (of both clients) returns the number
    of notes of the answer whose [system] flag is absent or false: a
    note without the flag counts as a user comment.  The count lies
    between 0 and the number of notes. *)
Theorem user_comments_count_is_number_of_user_notes
    (world : Type)
    (session_get : string -> string -> params -> world -> response * world)
    (project_id mr_iid : Z) (notes : list note) (w w' : world) :
  (0 <= Z.of_nat (List.length (filter user_note notes))
   <= Z.of_nat (List.length notes))
  /\ (forall self : App.GitLabClient,
        App._get session_get self
          ("/projects/" ++ str_of_int project_id
           ++ "/merge_requests/" ++ str_of_int mr_iid ++ "/notes")
          [("per_page", PInt 100)] w = (Ok (Notes notes), w') ->
        App.get_user_comments_count session_get self project_id mr_iid w
        = (Ok (Z.of_nat (List.length (filter user_note notes))), w'))
  /\ (forall self : Client.GitLabClient,
        Client._get session_get self
          ("/projects/" ++ str_of_int project_id
           ++ "/merge_requests/" ++ str_of_int mr_iid ++ "/notes")
          [("per_page", PInt 100)] w = (Ok (Notes notes), w') ->
        Client.get_user_comments_count session_get self project_id mr_iid w
        = (Ok (Z.of_nat (List.length (filter user_note notes))), w')).
Proof.
  destruct (is_user_note_spec notes) as [EA EC].
  split; [|split].
  - split; [lia|]. apply inj_le. apply filter_length_le.
  - intros self H. unfold App.get_user_comments_count, bind. rewrite H.
    unfold ret. now rewrite sum_ones, EA.
  - intros self H. unfold Client.get_user_comments_count, bind. rewrite H.
    unfold ret, Client.sum. now rewrite sum_ones, EC.
Qed.

Lemma user_comments_count_is_number_of_user_notes_witness :
  App._get Scripted.session_get Sample.app_client
    "/projects/42/merge_requests/4/notes" [("per_page", PInt 100)]
    Fixture.notes_world = (Ok (Notes Fixture.three_notes), Sample.served_out)
  /\ Client._get Scripted.session_get Sample.client
       "/projects/42/merge_requests/4/notes" [("per_page", PInt 100)]
       Fixture.notes_world
     = (Ok (Notes Fixture.three_notes), Sample.served_out)
  /\ App.get_user_comments_count Scripted.session_get Sample.app_client
       42 4 Fixture.notes_world = (Ok 2, Sample.served_out)
  /\ Client.get_user_comments_count Scripted.session_get Sample.client
       42 4 Fixture.notes_world = (Ok 2, Sample.served_out).
Proof.
  assert (HA : App._get Scripted.session_get Sample.app_client
                 "/projects/42/merge_requests/4/notes"
                 [("per_page", PInt 100)] Fixture.notes_world
               = (Ok (Notes Fixture.three_notes), Sample.served_out))
    by reflexivity.
  assert (HC : Client._get Scripted.session_get Sample.client
                 "/projects/42/merge_requests/4/notes"
                 [("per_page", PInt 100)] Fixture.notes_world
               = (Ok (Notes Fixture.three_notes), Sample.served_out))
    by reflexivity.
  destruct (@user_comments_count_is_number_of_user_notes _
              Scripted.session_get 42 4 Fixture.three_notes
              Fixture.notes_world Sample.served_out) as (_ & TA & TC).
  split; [exact HA|]. split; [exact HC|]. split.
  - exact (TA Sample.app_client HA).
  - exact (TC Sample.client HC).
Defined.

(** X4.  [get_diff_stats] of [gitlab_client.py] returns the total of
    additions plus deletions over the changed files of the answer.  The
    total does not depend on the order of the files nor on the reported
    [changes_count], it is 0 for no file, and it is not negative when no
    file count is. *)
Theorem client_diff_stats_is_total_of_file_counts
    (world : Type)
    (session_get : string -> string -> params -> world -> response * world)
    (self : Client.GitLabClient) (project_id mr_iid : Z)
    (c : changes_payload) (w w' : world) :
  Client._get session_get self
    ("/projects/" ++ str_of_int project_id
     ++ "/merge_requests/" ++ str_of_int mr_iid ++ "/changes")
    [] w = (Ok (Changes c), w') ->
  let total (files : list file_change) :=
    Client.sum (map (fun f => additions f + deletions f) files) in
  Client.get_diff_stats session_get self project_id mr_iid w
  = (Ok (total (changes c)), w')
  /\ total [] = 0
  /\ (forall files, Permutation (changes c) files ->
        total files = total (changes c))
  /\ (Forall (fun f => 0 <= additions f /\ 0 <= deletions f) (changes c) ->
      0 <= total (changes c)).
Proof.
  intros H total. split; [|split; [|split]].
  - unfold Client.get_diff_stats, bind. rewrite H. unfold ret.
    now rewrite sum_pointwise.
  - reflexivity.
  - intros files P. unfold total. symmetry.
    apply sum_permutation. now apply Permutation_map.
  - intros F. apply sum_nonneg. apply Forall_map.
    eapply Forall_impl; [|exact F]. cbn. intros f [? ?]. lia.
Qed.

Lemma client_diff_stats_is_total_of_file_counts_witness :
  Client._get Scripted.session_get Sample.client
    "/projects/42/merge_requests/4/changes" [] Fixture.changes_world
  = (Ok (Changes Fixture.two_files), Sample.served_out)
  /\ Client.get_diff_stats Scripted.session_get Sample.client 42 4
       Fixture.changes_world = (Ok 17, Sample.served_out).
Proof.
  assert (H : Client._get Scripted.session_get Sample.client
                "/projects/42/merge_requests/4/changes" []
                Fixture.changes_world
              = (Ok (Changes Fixture.two_files), Sample.served_out))
    by reflexivity.
  split; [exact H|].
  exact (proj1 (@client_diff_stats_is_total_of_file_counts _
                  Scripted.session_get Sample.client 42 4 Fixture.two_files
                  Fixture.changes_world Sample.served_out H)).
Defined.



End MetricProperties.

(* ================================================================== *)
(** * More on the age in days *)

Module AgeExtras.

Import Datetime.
Open Scope Z_scope.
Open Scope string_scope.

Lemma days_mono (a b : Z) : a <= b -> days a <= days b.
Proof.
  intros H. unfold days. apply Z.div_le_mono; [reflexivity | exact H].
Qed.

Section Parser.

Variable parse : string -> result datetime.

(** The end bound is the clock reading, or it does not depend on the
    clock at all. *)
Lemma end_of_clock_or_fixed (mr : merge_request) :
  (forall clock, App.end_of parse clock mr = Ok (utcnow clock))
  \/ (exists r, forall clock, App.end_of parse clock mr = r).
Proof.
  unfold App.end_of.
  destruct (String.eqb (state mr) "opened"); [now left|].
  destruct (Py.truthy_str (merged_at mr)); [right; eexists; reflexivity|].
  destruct (Py.truthy_str (closed_at mr)); [right; eexists; reflexivity|].
  now left.
Qed.

Lemma end_of_against_clock (clock : Z) (mr : merge_request) :
  state mr = "opened"
  \/ (Py.truthy_str (merged_at mr) = false
      /\ Py.truthy_str (closed_at mr) = false) ->
  App.end_of parse clock mr = Ok (utcnow clock).
Proof.
  unfold App.end_of. intros [E | [Em Ec]].
  - now rewrite E.
  - rewrite Em, Ec. now destruct (String.eqb (state mr) "opened").
Qed.

End Parser.

(** X6.  The age [calculate_days_past] computes never decreases as the
    clock advances, for any merge request: between two clock readings
    it either raises the same error or returns a value at least as
    large at the later reading. *)
Theorem age_never_decreases_with_the_clock
    (parse : string -> result datetime) (mr : merge_request)
    (clock clock' : Z) :
  clock <= clock' ->
  match App.calculate_days_past parse clock mr,
        App.calculate_days_past parse clock' mr with
  | Ok d, Ok d' => d <= d'
  | Raise e, Raise e' => e = e'
  | _, _ => False
  end.
Proof.
  intros H.
  rewrite !AgeProperties.calculate_days_past_parts.
  destruct (App.parse_naive parse (created_at mr)) as [created | e];
    cbn [rbind]; [|reflexivity].
  destruct (end_of_clock_or_fixed parse mr) as [E | (r & E)]; rewrite !E.
  - cbn [rbind utcnow wall].
    apply Z.max_le_compat_r. apply days_mono. lia.
  - destruct r as [end_ | e]; cbn [rbind]; [lia | reflexivity].
Qed.

Lemma age_never_decreases_with_the_clock_witness :
  Sample.clock_2024_03_01 <= Fixture.clock_2024_03_01_10h
  /\ App.calculate_days_past Iso8601.parse Sample.clock_2024_03_01
       Sample.mr_nameless = Ok 9
  /\ App.calculate_days_past Iso8601.parse Fixture.clock_2024_03_01_10h
       Sample.mr_nameless = Ok 10
  /\ (9 <= 10).
Proof.
  assert (H : Sample.clock_2024_03_01 <= Fixture.clock_2024_03_01_10h)
    by (vm_compute; discriminate).
  pose proof (age_never_decreases_with_the_clock Iso8601.parse
                Sample.mr_nameless H) as T.
  split; [exact H|].
  split; [vm_compute; reflexivity|]. split; [vm_compute; reflexivity|].
  exact T.
Defined.

(** X7.  For a merge request that is not open and has no merge
    timestamp (absent, null or empty) but a close timestamp,
    [calculate_days_past] returns the whole-day difference between
    creation and closing, floored at 0, whatever the clock reads. *)
Theorem closed_age_is_fixed
    (parse : string -> result datetime) (mr : merge_request) (s : string)
    (created closed : datetime) :
  state mr <> "opened" ->
  merged_at mr = None \/ merged_at mr = Some "" ->
  closed_at mr = Some s -> s <> "" ->
  parse (created_at mr) = Ok created -> parse s = Ok closed ->
  forall clock,
    App.calculate_days_past parse clock mr
    = Ok (Z.max ((wall closed - wall created) / us_per_day) 0).
Proof.
  intros Hstate Hmerged Hclosed Hs Hc Hp clock.
  rewrite AgeProperties.calculate_days_past_parts.
  unfold App.end_of, App.parse_naive.
  destruct (String.eqb_spec (state mr) "opened") as [E | _]; [contradiction|].
  assert (M : Py.truthy_str (merged_at mr) = false)
    by (destruct Hmerged as [-> | ->]; reflexivity).
  rewrite M, Hclosed, (AgeProperties.truthy_str_some Hs), Hc, Hp.
  reflexivity.
Qed.

Lemma closed_age_is_fixed_witness :
  state Fixture.mr_closed <> "opened"
  /\ (merged_at Fixture.mr_closed = None
      \/ merged_at Fixture.mr_closed = Some "")
  /\ closed_at Fixture.mr_closed = Some "2024-02-26T12:00:00.000Z"
  /\ "2024-02-26T12:00:00.000Z" <> ""
  /\ forall clock,
       App.calculate_days_past Iso8601.parse clock Fixture.mr_closed = Ok 1.
Proof.
  assert (H1 : state Fixture.mr_closed <> "opened") by discriminate.
  assert (H2 : merged_at Fixture.mr_closed = None
               \/ merged_at Fixture.mr_closed = Some "") by (now right).
  assert (H3 : closed_at Fixture.mr_closed = Some "2024-02-26T12:00:00.000Z")
    by reflexivity.
  assert (H4 : "2024-02-26T12:00:00.000Z" <> "") by discriminate.
  split; [exact H1|]. split; [exact H2|]. split; [exact H3|].
  split; [exact H4|].
  refine (@closed_age_is_fixed Iso8601.parse Fixture.mr_closed
            "2024-02-26T12:00:00.000Z"
            {| wall := 1708855200000000; tzinfo := Some 0 |}
            {| wall := 1708948800000000; tzinfo := Some 0 |}
            H1 H2 H3 H4 _ _);
    vm_compute; reflexivity.
Defined.

(** X8.  A merge request is aged against the clock when it is open,
    whatever its other timestamps are, and also when it is not open but
    has neither a merge nor a close timestamp: the age is then the
    whole-day difference between the clock and the creation timestamp,
    floored at 0. *)
Theorem open_or_undated_age_uses_the_clock
    (parse : string -> result datetime) (mr : merge_request)
    (created : datetime) (clock : Z) :
  state mr = "opened"
  \/ (Py.truthy_str (merged_at mr) = false
      /\ Py.truthy_str (closed_at mr) = false) ->
  parse (created_at mr) = Ok created ->
  App.calculate_days_past parse clock mr
  = Ok (Z.max ((clock - wall created) / us_per_day) 0).
Proof.
  intros H Hc. rewrite AgeProperties.calculate_days_past_parts.
  rewrite (end_of_against_clock parse clock mr H).
  unfold App.parse_naive. rewrite Hc. reflexivity.
Qed.

Lemma open_or_undated_age_uses_the_clock_witness :
  (state Fixture.mr_undated = "opened"
   \/ (Py.truthy_str (merged_at Fixture.mr_undated) = false
       /\ Py.truthy_str (closed_at Fixture.mr_undated) = false))
  /\ Iso8601.parse (created_at Fixture.mr_undated)
     = Ok {| wall := 1708423200000000; tzinfo := Some 0 |}
  /\ App.calculate_days_past Iso8601.parse Sample.clock_2024_03_01
       Fixture.mr_undated = Ok 9.
Proof.
  assert (H : state Fixture.mr_undated = "opened"
              \/ (Py.truthy_str (merged_at Fixture.mr_undated) = false
                  /\ Py.truthy_str (closed_at Fixture.mr_undated) = false))
    by (right; split; reflexivity).
  assert (Hc : Iso8601.parse (created_at Fixture.mr_undated)
               = Ok {| wall := 1708423200000000; tzinfo := Some 0 |})
    by (vm_compute; reflexivity).
  split; [exact H|]. split; [exact Hc|].
  exact (@open_or_undated_age_uses_the_clock Iso8601.parse Fixture.mr_undated
           _ Sample.clock_2024_03_01 H Hc).
Defined.

(** X9.  [calculate_days_past] never converts a timestamp to UTC: the
    zone of a parsed timestamp is dropped and only its calendar and
    clock fields are used.  Two parsers that agree on those fields give
    the same age, whatever zones they report. *)
Theorem age_ignores_utc_offsets
    (parse parse' : string -> result datetime) (mr : merge_request)
    (clock : Z) :
  (forall s,
     match parse s, parse' s with
     | Ok d, Ok d' => wall d = wall d'
     | Raise e, Raise e' => e = e'
     | _, _ => False
     end) ->
  App.calculate_days_past parse clock mr
  = App.calculate_days_past parse' clock mr.
Proof.
  intros H.
  assert (E : forall s, App.parse_naive parse s = App.parse_naive parse' s).
  { intros s. unfold App.parse_naive. specialize (H s).
    destruct (parse s) as [d | e], (parse' s) as [d' | e'];
      cbn [rbind]; try contradiction.
    - unfold replace_tzinfo_None. now rewrite H.
    - now rewrite H. }
  unfold App.calculate_days_past. now rewrite !E.
Qed.

Lemma age_ignores_utc_offsets_witness :
  (forall s,
     match Iso8601.parse s, App.parse_naive Iso8601.parse s with
     | Ok d, Ok d' => wall d = wall d'
     | Raise e, Raise e' => e = e'
     | _, _ => False
     end)
  /\ App.calculate_days_past Iso8601.parse Sample.clock_2024_03_01
       Fixture.mr_zoned = Ok 1
  /\ App.calculate_days_past (App.parse_naive Iso8601.parse)
       Sample.clock_2024_03_01 Fixture.mr_zoned = Ok 1.
Proof.
  assert (H : forall s,
             match Iso8601.parse s, App.parse_naive Iso8601.parse s with
             | Ok d, Ok d' => wall d = wall d'
             | Raise e, Raise e' => e = e'
             | _, _ => False
             end).
  { intros s. unfold App.parse_naive.
    destruct (Iso8601.parse s); reflexivity. }
  split; [exact H|]. split; [vm_compute; reflexivity|].
  rewrite <- (age_ignores_utc_offsets Iso8601.parse
                (App.parse_naive Iso8601.parse) Fixture.mr_zoned
                Sample.clock_2024_03_01 H).
  vm_compute. reflexivity.
Defined.

(** X10.  For an open merge request the age of [app.py] is the value
    [days_since] of [gitlab_client.py] gives for the creation
    timestamp, floored at 0; both raise when the timestamp does not
    parse. *)
Theorem open_age_is_days_since_floored
    (parse : string -> result datetime) (mr : merge_request) (clock : Z) :
  state mr = "opened" ->
  App.calculate_days_past parse clock mr
  = rbind (Client.days_since parse clock (created_at mr))
      (fun d => Ok (Z.max d 0)).
Proof.
  intros H. rewrite AgeProperties.calculate_days_past_parts.
  rewrite (end_of_against_clock parse clock mr (or_introl H)).
  unfold App.parse_naive, Client.days_since.
  destruct (parse (created_at mr)); reflexivity.
Qed.

Lemma open_age_is_days_since_floored_witness :
  state Sample.mr_ahead = "opened"
  /\ Client.days_since Iso8601.parse Sample.clock_2024_03_01
       (created_at Sample.mr_ahead) = Ok (-1)
  /\ App.calculate_days_past Iso8601.parse Sample.clock_2024_03_01
       Sample.mr_ahead = Ok 0.
Proof.
  assert (H : state Sample.mr_ahead = "opened") by reflexivity.
  split; [exact H|]. split; [vm_compute; reflexivity|].
  rewrite (open_age_is_days_since_floored Iso8601.parse Sample.mr_ahead
             Sample.clock_2024_03_01 H).
  vm_compute. reflexivity.
Defined.

End AgeExtras.

(* ================================================================== *)
(** * More on the rows *)

Module RowExtras.

Import App.
Open Scope nat_scope.
Open Scope string_scope.

Lemma length_append (s t : string) :
  String.length (s ++ t) = String.length s + String.length t.
Proof.
  induction s as [|c s IH]; [reflexivity|]. cbn. now rewrite IH.
Qed.

(** X11.  The Title of a row has the length of the title when that is
    at most 40 and exactly 43 characters otherwise, so it is never
    longer than 43 characters; a title of 41 or 42 characters is shown
    longer than it is. *)
Theorem title_length (mr : merge_request) (score : Z) :
  String.length (Title (make_row mr score))
  = (if (String.length (title mr) <=? 40)%nat
     then String.length (title mr) else 43)
  /\ String.length (Title (make_row mr score)) <= 43
  /\ (40 < String.length (title mr) < 43 ->
      String.length (title mr) < String.length (Title (make_row mr score))).
Proof.
  cbn [Title make_row]. unfold row_title.
  assert (E : String.length (row_title (title mr))
              = if (String.length (title mr) <=? 40)%nat
                then String.length (title mr) else 43).
  { unfold row_title.
    destruct (Nat.ltb_spec 40 (String.length (title mr))) as [L | L];
      destruct (Nat.leb_spec (String.length (title mr)) 40) as [L' | L'];
      try lia.
    rewrite length_append.
    destruct (@RowProperties.substring_prefix 40 (title mr)) as [-> _];
      [lia | reflexivity]. }
  unfold row_title in E. rewrite E.
  destruct (Nat.leb_spec (String.length (title mr)) 40); repeat split; lia.
Qed.

Lemma title_length_witness :
  40 < String.length "A title of forty-one characters in total."
       < 43
  /\ String.length
       (row_title "A title of forty-one characters in total.") = 43.
Proof.
  assert (H : 40 < String.length "A title of forty-one characters in total."
              < 43) by (cbn; lia).
  split; [exact H|].
  pose (mr := {| iid := 1;
                 title := "A title of forty-one characters in total.";
                 web_url := ""; created_at := ""; state := "opened";
                 merged_at := None; closed_at := None;
                 assignees := None |}).
  destruct (title_length mr 0) as (E & _ & L).
  specialize (L H). cbn [Title make_row title mr] in E, L.
  rewrite E. reflexivity.
Defined.

(** X12.  The Assignee of a row is never the empty string, a row whose
    State is "Unassigned" always shows "-", and the State is one of
    "Assigned" and "Unassigned". *)
Theorem assignee_never_empty (mr : merge_request) (score : Z) :
  Assignee (make_row mr score) <> ""
  /\ (State (make_row mr score) = "Unassigned" ->
      Assignee (make_row mr score) = "-")
  /\ (State (make_row mr score) = "Assigned"
      \/ State (make_row mr score) = "Unassigned").
Proof.
  cbn [Assignee State make_row]. split; [|split].
  - unfold row_assignee.
    destruct (String.eqb_spec
                (String.concat ", "
                   (map name (match assignees mr with
                              | Some l => l | None => [] end))) "") as [E | N];
      [discriminate | exact N].
  - unfold row_state, row_assignee, has_assignees.
    destruct (assignees mr) as [[|a l]|]; try reflexivity. discriminate.
  - unfold row_state. destruct (has_assignees mr); auto.
Qed.

Lemma assignee_never_empty_witness :
  State (make_row Sample.mr_unassigned 0) = "Unassigned"
  /\ Assignee (make_row Sample.mr_unassigned 0) = "-".
Proof.
  assert (H : State (make_row Sample.mr_unassigned 0) = "Unassigned")
    by reflexivity.
  split; [exact H|].
  exact (proj1 (proj2 (assignee_never_empty Sample.mr_unassigned 0)) H).
Defined.

End RowExtras.

(* ================================================================== *)
(** * More on the table of a fresh run *)

Module PipelineExtras.

Import App.
Open Scope list_scope.

Section Pipeline.

Variable world : Type.
Variable session_get : string -> string -> params -> world -> response * world.
Variable parse : string -> result Datetime.datetime.
Variable clock : world -> Z.
Variable th : thresholds.

(** The loop over [pre ++ post] is the loop over [pre] and then the loop
    over [post], from the rows and the world the first leaves. *)
Lemma rows_from_app (client : GitLabClient) (project_id : Z)
    (pre post : list merge_request) :
  forall (rows : list row) (w : world),
    rows_from session_get parse clock th client project_id
      (pre ++ post) rows w
    = bind (rows_from session_get parse clock th client project_id pre rows)
        (fun r =>
           rows_from session_get parse clock th client project_id post r) w.
Proof.
  induction pre as [|mr pre IH]; intros rows w; [reflexivity|].
  cbn [app rows_from]. unfold bind.
  destruct (score_of session_get parse clock th client project_id mr w)
    as [[score | e] w1]; [|reflexivity].
  exact (IH _ w1).
Qed.

(** A creation timestamp that does not parse fails the score before any
    request is made for the merge request. *)
Lemma score_of_unparsable (client : GitLabClient) (project_id : Z)
    (mr : merge_request) (e : exn) (w : world) :
  parse (created_at mr) = Raise e ->
  score_of session_get parse clock th client project_id mr w = (Raise e, w).
Proof.
  intros H. unfold score_of, bind, utcnow_reading, lift.
  unfold calculate_days_past, parse_naive. now rewrite H.
Qed.

End Pipeline.

(** X13.  The table of a fresh run follows the listing: when
    [fetch_rows] returns, the listing returned some merge requests and
    the table has exactly one row for each of them, in the order of the
    listing, each assembled from its merge request and a score. *)
Theorem table_follows_the_listing
    (world : Type)
    (session_get : string -> string -> params -> world -> response * world)
    (parse : string -> result Datetime.datetime) (clock : world -> Z)
    (th : thresholds) (client : GitLabClient) (project_id : Z)
    (states : list string) (out : list row) (w w' : world) :
  fetch_rows session_get parse clock th client project_id states w
  = (Ok out, w') ->
  exists mrs w1 scores,
    get_merge_requests session_get client project_id states w = (Ok mrs, w1)
    /\ List.length scores = List.length mrs
    /\ out = map scored_row (combine mrs scores)
    /\ List.length out = List.length mrs
    /\ map ID out = map iid mrs.
Proof.
  intros H.
  destruct (@PipelineProperties.fetch_rows_in_order world session_get parse
              clock th client project_id states out w w' H)
    as (mrs & w1 & L & I).
  exists mrs, w1. unfold fetch_rows, bind at 1 in H. rewrite L in H.
  destruct (@PipelineProperties.rows_from_in_order world session_get parse
              clock th client project_id mrs [] out w1 w' H)
    as (scores & Hlen & Hout).
  exists scores. cbn [app] in Hout.
  split; [exact L|]. split; [exact Hlen|]. split; [exact Hout|].
  split; [|exact I].
  rewrite <- (length_map ID out), I. apply length_map.
Qed.

Lemma table_follows_the_listing_witness :
  fetch_rows Scripted.session_get Iso8601.parse Scripted.clock
    Sample.unit_weights Sample.app_client 42 ["opened"%string]
    Sample.one_open_mr
  = (Ok [make_row Sample.mr_nameless 700], Sample.served_out)
  /\ exists mrs w1 scores,
       get_merge_requests Scripted.session_get Sample.app_client 42
         ["opened"%string] Sample.one_open_mr = (Ok mrs, w1)
       /\ List.length scores = List.length mrs
       /\ [make_row Sample.mr_nameless 700]
          = map scored_row (combine mrs scores)
       /\ List.length [make_row Sample.mr_nameless 700] = List.length mrs
       /\ map ID [make_row Sample.mr_nameless 700] = map iid mrs.
Proof.
  assert (H : fetch_rows Scripted.session_get Iso8601.parse Scripted.clock
                Sample.unit_weights Sample.app_client 42 ["opened"%string]
                Sample.one_open_mr
              = (Ok [make_row Sample.mr_nameless 700], Sample.served_out))
    by (vm_compute; reflexivity).
  split; [exact H|].
  exact (@table_follows_the_listing _ Scripted.session_get Iso8601.parse
           Scripted.clock Sample.unit_weights Sample.app_client 42
           ["opened"%string] _ Sample.one_open_mr Sample.served_out H).
Defined.

(** X14.  A merge request whose creation timestamp does not parse
    aborts the fresh run: the loop raises the parser's error, the rows
    assembled before it are lost, and no request is made for that
    merge request or for any after it. *)
Theorem unparsable_timestamp_aborts_the_run
    (world : Type)
    (session_get : string -> string -> params -> world -> response * world)
    (parse : string -> result Datetime.datetime) (clock : world -> Z)
    (th : thresholds) (client : GitLabClient) (project_id : Z)
    (pre post : list merge_request) (mr : merge_request) (e : exn)
    (rows : list row) (w w1 : world) :
  rows_from session_get parse clock th client project_id pre [] w
  = (Ok rows, w1) ->
  parse (created_at mr) = Raise e ->
  rows_from session_get parse clock th client project_id
    (pre ++ mr :: post) [] w = (Raise e, w1).
Proof.
  intros Hpre Hparse. rewrite rows_from_app. unfold bind at 1.
  rewrite Hpre. cbn [rows_from]. unfold bind at 1.
  now rewrite (@score_of_unparsable world session_get parse clock th client
                 project_id mr e w1 Hparse).
Qed.

Lemma unparsable_timestamp_aborts_the_run_witness :
  rows_from Scripted.session_get Iso8601.parse Scripted.clock
    Sample.unit_weights Sample.app_client 42 [Sample.mr_nameless] []
    Fixture.two_reports
  = (Ok [make_row Sample.mr_nameless 700], Fixture.one_report)
  /\ Iso8601.parse (created_at Fixture.mr_undatable) = Raise ParserError
  /\ rows_from Scripted.session_get Iso8601.parse Scripted.clock
       Sample.unit_weights Sample.app_client 42
       [Sample.mr_nameless; Fixture.mr_undatable; Sample.mr_merged] []
       Fixture.two_reports
     = (Raise ParserError, Fixture.one_report).
Proof.
  assert (H : rows_from Scripted.session_get Iso8601.parse Scripted.clock
                Sample.unit_weights Sample.app_client 42
                [Sample.mr_nameless] [] Fixture.two_reports
              = (Ok [make_row Sample.mr_nameless 700], Fixture.one_report))
    by (vm_compute; reflexivity).
  assert (P : Iso8601.parse (created_at Fixture.mr_undatable)
              = Raise ParserError) by (vm_compute; reflexivity).
  split; [exact H|]. split; [exact P|].
  exact (@unparsable_timestamp_aborts_the_run _ Scripted.session_get
           Iso8601.parse Scripted.clock Sample.unit_weights
           Sample.app_client 42 [Sample.mr_nameless] [Sample.mr_merged]
           Fixture.mr_undatable ParserError _ _ _ H P).
Defined.

End PipelineExtras.

(* ================================================================== *)
(** * More on the two scores *)

Module ScoreExtras.

Open Scope Q_scope.









(** X18.  Variant A does not tell ages below one day apart: every
    days_past of at most 1 scores like days_past = 1.  With positive
    thresholds and non-negative lines_changed and comments the score is
    never negative. *)
Theorem variant_a_floors_the_age (th : App.thresholds) (d l c : Z) :
  ((d <= 1)%Z -> App.calculate_score th d l c = App.calculate_score th 1 l c)
  /\ (App.positive th -> (0 <= l)%Z -> (0 <= c)%Z ->
      (0 <= App.calculate_score th d l c)%Z).
Proof.
  split.
  - intros H. rewrite !AppFacts.calculate_score_parts.
    assert (E : App.clamp_days d = App.clamp_days 1).
    { change (App.clamp_days 1) with 1%Z. unfold App.clamp_days.
      destruct (Z.ltb_spec d 1); [reflexivity | lia]. }
    now rewrite E.
  - intros (Hdt & Hlt & Hct) Hl Hc.
    rewrite AppFacts.calculate_score_eq by assumption.
    apply PyFacts.int_nonneg.
    pose proof (AppFacts.app_numerator_nonneg th Hdt Hlt d Hl).
    pose proof (AppFacts.app_denominator_pos th Hdt Hct d l Hc).
    pose proof (QFacts.div_nonneg H H0). lra.
Qed.

Lemma variant_a_floors_the_age_witness :
  (0 <= 1)%Z
  /\ App.calculate_score Sample.unit_weights 0 50 2
     = App.calculate_score Sample.unit_weights 1 50 2
  /\ App.positive Sample.unit_weights /\ (0 <= 50)%Z /\ (0 <= 2)%Z
  /\ (0 <= App.calculate_score Sample.unit_weights 0 50 2)%Z.
Proof.
  assert (H : (0 <= 1)%Z) by lia.
  assert (P : App.positive Sample.unit_weights) by (repeat split; reflexivity).
  assert (H50 : (0 <= 50)%Z) by lia.
  assert (H2 : (0 <= 2)%Z) by lia.
  destruct (variant_a_floors_the_age Sample.unit_weights 0 50 2) as [A B].
  split; [exact H|]. split; [exact (A H)|]. split; [exact P|].
  split; [exact H50|]. split; [exact H2|]. exact (B P H50 H2).
Defined.

End ScoreExtras.

(* ================================================================== *)
(** * The cache *)

Module CacheProperties.

Import Dashboard.
Open Scope string_scope.

Lemma disk_read_write_same (p : string) (f : file) (w : Disk.world) :
  Disk.read_file p (Disk.write_file p f w) = Some f.
Proof.
  unfold Disk.read_file, Disk.write_file. cbn. now rewrite String.eqb_refl.
Qed.

Lemma disk_read_write_other (p q : string) (f : file) (w : Disk.world) :
  p <> q -> Disk.read_file q (Disk.write_file p f w) = Disk.read_file q w.
Proof.
  intros H. unfold Disk.read_file, Disk.write_file. cbn.
  destruct (String.eqb_spec q p) as [E | _]; [|reflexivity].
  subst q. contradiction.
Qed.

Section Files.

Variable world : Type.
Variable clock : world -> Z.
Variable read_file : string -> world -> option file.
Variable write_file : string -> file -> world -> world.
Variable isoformat : Z -> string.

(** A file reads back as it was written, and writing one file leaves
    the others as they were. *)
Hypothesis read_write_same :
  forall p f w, read_file p (write_file p f w) = Some f.
Hypothesis read_write_other :
  forall p q f w, p <> q -> read_file q (write_file p f w) = read_file q w.

(** X19.  Saving a table and loading it gives the table back, whatever
    the cache held before: after [save_cached_data(df)] both cache files
    exist, [load_cached_data()] returns [df], and [get_last_run_time()]
    returns the ISO form of the clock reading taken after the table was
    written.  The session state is not touched. *)
Theorem save_then_load_round_trip
    (df : list App.row) (s : session) (w : world) :
  let w1 := write_file CACHE_DATA_FILE (Pickle df) w in
  exists w2,
    save_cached_data clock write_file isoformat df s w = (Done tt, s, w2)
    /\ load_cached_data read_file s w2 = (Done df, s, w2)
    /\ get_last_run_time read_file s w2
       = (Done (Some (isoformat (clock w1))), s, w2)
    /\ path_exists read_file CACHE_DATA_FILE w2 = true
    /\ path_exists read_file CACHE_META_FILE w2 = true.
Proof.
  intros w1. eexists. split; [reflexivity|].
  assert (N : CACHE_META_FILE <> CACHE_DATA_FILE) by discriminate.
  unfold load_cached_data, get_last_run_time, path_exists.
  rewrite (read_write_other _ _ N), !read_write_same.
  repeat split; reflexivity.
Qed.

End Files.

Lemma save_then_load_round_trip_witness :
  (forall p f w, Disk.read_file p (Disk.write_file p f w) = Some f)
  /\ (forall p q f w,
        p <> q ->
        Disk.read_file q (Disk.write_file p f w) = Disk.read_file q w)
  /\ exists w2,
       save_cached_data Disk.clock Disk.write_file Disk.isoformat
         Fixture.one_row_table empty_session Fixture.blank_disk
       = (Done tt, empty_session, w2)
       /\ load_cached_data Disk.read_file empty_session w2
          = (Done Fixture.one_row_table, empty_session, w2)
       /\ get_last_run_time Disk.read_file empty_session w2
          = (Done (Some "2024-03-01T00:00:00"), empty_session, w2).
Proof.
  split; [exact disk_read_write_same|].
  split; [exact disk_read_write_other|].
  destruct (@save_then_load_round_trip Disk.world Disk.clock Disk.read_file
              Disk.write_file Disk.isoformat disk_read_write_same
              disk_read_write_other Fixture.one_row_table empty_session
              Fixture.blank_disk) as (w2 & S & L & T & _).
  exists w2. split; [exact S|]. split; [exact L|]. exact T.
Defined.

End CacheProperties.

(* ================================================================== *)
(** * The selection maps *)

Module DictProperties.

Open Scope string_scope.
Open Scope list_scope.

Lemma get_set (d : Dict.t) (k k' : string) (v : Z) :
  Dict.get (Dict.set d k v) k'
  = if String.eqb k' k then Some v else Dict.get d k'.
Proof.
  induction d as [|[k0 v0] d IH]; cbn [Dict.set Dict.get].
  - reflexivity.
  - destruct (String.eqb_spec k k0) as [-> | N]; cbn [Dict.get].
    + destruct (String.eqb_spec k' k0); reflexivity.
    + rewrite IH. destruct (String.eqb_spec k' k0) as [-> | N'];
        [|reflexivity].
      destruct (String.eqb_spec k0 k) as [E | _]; [|reflexivity].
      subst k. contradiction.
Qed.

Lemma keys_set (d : Dict.t) (k : string) (v : Z) :
  (In k (Dict.keys d) -> Dict.keys (Dict.set d k v) = Dict.keys d)
  /\ (~ In k (Dict.keys d) ->
      Dict.keys (Dict.set d k v) = Dict.keys d ++ [k]).
Proof.
  induction d as [|[k0 v0] d [IHin IHout]]; cbn [Dict.set Dict.keys map fst].
  - split; [intros []|reflexivity].
  - destruct (String.eqb_spec k k0) as [-> | N].
    + split; [reflexivity|]. intros H. exfalso. apply H. now left.
    + cbn [map fst]. split; intros H.
      * f_equal. apply IHin. destruct H as [E | H]; [|exact H].
        subst k0. contradiction.
      * cbn [app]. f_equal. apply IHout. intros C. apply H. now right.
Qed.

Lemma keys_set_nodup (d : Dict.t) (k : string) (v : Z) :
  NoDup (Dict.keys d) -> NoDup (Dict.keys (Dict.set d k v)).
Proof.
  intros H. destruct (in_dec string_dec k (Dict.keys d)) as [I | I].
  - now rewrite (proj1 (keys_set d k v) I).
  - rewrite (proj2 (keys_set d k v) I).
    apply NoDup_app; [exact H | repeat constructor; intros [] |].
    intros x Hx [-> | []]. contradiction.
Qed.

Lemma keys_set_in (d : Dict.t) (k : string) (v : Z) (n : string) :
  In n (Dict.keys (Dict.set d k v)) <-> In n (Dict.keys d) \/ n = k.
Proof.
  destruct (in_dec string_dec k (Dict.keys d)) as [I | I].
  - rewrite (proj1 (keys_set d k v) I). split; [auto|].
    intros [H | ->]; assumption.
  - rewrite (proj2 (keys_set d k v) I), in_app_iff. cbn.
    intuition auto.
Qed.

Lemma find_last {A : Type} (p : A -> bool) (l : list A) (a : A) :
  find p (l ++ [a])
  = match find p l with
    | Some x => Some x
    | None => if p a then Some a else None
    end.
Proof.
  induction l as [|x l IH]; cbn; [reflexivity|].
  destruct (p x); [reflexivity | exact IH].
Qed.

(** The map built over an accumulator [d]. *)
Lemma fold_set_spec (gs : list Named.t) :
  forall d : Dict.t,
    let m := fold_left
               (fun d g => Dict.set d (Named.name g) (Named.id g)) gs d in
    (NoDup (Dict.keys d) -> NoDup (Dict.keys m))
    /\ (forall n,
          In n (Dict.keys m)
          <-> In n (Dict.keys d) \/ In n (map Named.name gs))
    /\ (forall n,
          Dict.get m n
          = match find (fun g => String.eqb (Named.name g) n) (rev gs) with
            | Some g => Some (Named.id g)
            | None => Dict.get d n
            end).
Proof.
  induction gs as [|g gs IH]; intros d; cbn zeta.
  - cbn. split; [auto|]. split; [|reflexivity].
    intros n. split; [auto | intros [H | []]; exact H].
  - cbn [fold_left map rev].
    destruct (IH (Dict.set d (Named.name g) (Named.id g))) as (N & I & G).
    split; [|split].
    + intros H. apply N. now apply keys_set_nodup.
    + intros n. rewrite I, keys_set_in. cbn [In]. intuition auto.
    + intros n. rewrite G, find_last, get_set.
      destruct (find _ (rev gs)); [reflexivity|].
      rewrite (String.eqb_sym n).
      now destruct (String.eqb (Named.name g) n).
Qed.

(** What a name resolves to is the id of an entity of the listing that
    bears the name. *)
Lemma get_of_named_listed (gs : list Named.t) (n : string) (v : Z) :
  Dict.get (Dict.of_named gs) n = Some v ->
  exists g, In g gs /\ Named.name g = n /\ Named.id g = v.
Proof.
  unfold Dict.of_named. destruct (fold_set_spec gs []) as (_ & _ & G).
  rewrite G.
  destruct (find (fun g => String.eqb (Named.name g) n) (rev gs)) as [g|] eqn:F;
    [|discriminate].
  intros [= <-]. apply find_some in F. destruct F as [I E].
  exists g. split; [now apply in_rev|].
  split; [now apply String.eqb_eq | reflexivity].
Qed.

(** A name among the keys resolves. *)
Lemma get_of_named_offered (gs : list Named.t) (n : string) :
  In n (Dict.keys (Dict.of_named gs)) -> Dict.get (Dict.of_named gs) n <> None.
Proof.
  unfold Dict.of_named. destruct (fold_set_spec gs []) as (_ & I & G).
  intros H. apply I in H. destruct H as [[] | H]. rewrite G.
  apply in_map_iff in H. destruct H as (g & E & Hg).
  destruct (find (fun g => String.eqb (Named.name g) n) (rev gs)) eqn:F;
    [discriminate|].
  apply in_rev in Hg. pose proof (find_none _ _ F g Hg) as C. cbn in C.
  rewrite E, String.eqb_refl in C. discriminate C.
Qed.

(** Only the empty listing gives a map without keys. *)
Lemma keys_of_named_nil (gs : list Named.t) :
  Dict.keys (Dict.of_named gs) = [] -> gs = [].
Proof.
  destruct gs as [|g gs]; [reflexivity|]. intros H. exfalso.
  unfold Dict.of_named in H.
  destruct (fold_set_spec (g :: gs) []) as (_ & I & _).
  pose proof (proj2 (I (Named.name g)) (or_intror (or_introl eq_refl))) as C.
  rewrite H in C. exact C.
Qed.

(** X20.  The map a select box is filled from, built as
    [{g["name"]: g["id"] for g in groups}], offers every name of the
    listing exactly once, and a name resolves to the id of the last
    entity of the listing that bears it: of two groups with one name the
    earlier cannot be selected.  Every offered name resolves. *)
Theorem selection_map_resolves_to_last (gs : list Named.t) :
  let m := Dict.of_named gs in
  NoDup (Dict.keys m)
  /\ (forall n, In n (Dict.keys m) <-> In n (map Named.name gs))
  /\ (forall n,
        Dict.get m n
        = option_map Named.id
            (find (fun g => String.eqb (Named.name g) n) (rev gs)))
  /\ (forall n, In n (Dict.keys m) -> exists v, Dict.get m n = Some v).
Proof.
  cbn zeta. unfold Dict.of_named.
  destruct (fold_set_spec gs []) as (N & I & G).
  assert (G' : forall n,
             Dict.get
               (fold_left
                  (fun d g => Dict.set d (Named.name g) (Named.id g)) gs [])
               n
             = option_map Named.id
                 (find (fun g => String.eqb (Named.name g) n) (rev gs))).
  { intros n. rewrite G. now destruct (find _ (rev gs)). }
  assert (I' : forall n,
             In n (Dict.keys
                     (fold_left
                        (fun d g => Dict.set d (Named.name g) (Named.id g))
                        gs []))
             <-> In n (map Named.name gs)).
  { intros n. rewrite I. cbn. intuition auto. }
  split; [apply N; constructor|]. split; [exact I'|]. split; [exact G'|].
  intros n H. rewrite G'. apply I' in H. apply in_map_iff in H.
  destruct H as (g & E & Hg).
  destruct (find (fun g => String.eqb (Named.name g) n) (rev gs)) eqn:F.
  - eexists. reflexivity.
  - exfalso. apply in_rev in Hg.
    pose proof (find_none _ _ F g Hg) as C. cbn in C.
    rewrite E, String.eqb_refl in C. discriminate C.
Qed.

(** Two groups named "platform": the select box offers the name once
    and it stands for the second. *)
Example shadowed_group :
  Dict.keys (Dict.of_named Fixture.three_groups) = ["platform"; "tools"]
  /\ Dict.get (Dict.of_named Fixture.three_groups) "platform" = Some 13%Z.
Proof. split; reflexivity. Qed.

End DictProperties.

(* ================================================================== *)
(** * The stages *)

Module StageProperties.

Import Dashboard.
Open Scope string_scope.

Section Script.

Variable world : Type.
Variable session_get : string -> string -> params -> world -> response * world.
Variable session_get_named :
  string -> string -> params -> world -> listing * world.
Variable parse : string -> result Datetime.datetime.
Variable clock : world -> Z.
Variable read_file : string -> world -> option file.
Variable write_file : string -> file -> world -> world.
Variable isoformat : Z -> string.
Variable fromisoformat_ok : string -> bool.
Variable cfg : config.

Local Abbreviation run_script :=
  (run session_get session_get_named parse clock read_file write_file
     isoformat fromisoformat_ok cfg).
Local Abbreviation init_stage := (stage_init read_file fromisoformat_ok).
Local Abbreviation select_stage := (stage_select session_get_named cfg).
Local Abbreviation data_stage :=
  (stage_data session_get parse clock read_file write_file isoformat cfg).

Lemma stage_init_eq (ui : widgets) (s : session) (w : world) :
  init_stage ui s w
  = match read_file CACHE_META_FILE w with
    | Some (Pickle _) => (Failed DecodeError, s, w)
    | Some (Json last_run) =>
        if truthy last_run && path_exists read_file CACHE_DATA_FILE w
        then
          if fromisoformat_ok
               (match last_run with Some l => l | None => "" end)
          then
            init_end ui s w
              (String.eqb
                 (radio ui "Choose an option"
                    ["Load previous data"; "Re-run"])
                 "Load previous data")
          else (Failed ValueError, s, w)
        else init_end ui s w false
    | None => init_end ui s w false
    end.
Proof.
  unfold stage_init, sbind, get_last_run_time, init_end, set_use_cached,
    set_stage, rerun, sret.
  destruct (read_file CACHE_META_FILE w) as [[df | last_run]|];
    try reflexivity.
  - destruct (truthy last_run && path_exists read_file CACHE_DATA_FILE w).
    + destruct (fromisoformat_ok _); [|reflexivity].
      destruct (button ui "Continue"); reflexivity.
    + destruct (button ui "Continue"); reflexivity.
  - cbn [truthy Py.truthy_str andb].
    destruct (button ui "Continue"); reflexivity.
Qed.

(** The scrutinee at the head of a term. *)
Ltac head_scrutinee t :=
  lazymatch t with
  | match ?x with _ => _ end => head_scrutinee x
  | (match ?x with _ => _ end) _ => head_scrutinee x
  | (match ?x with _ => _ end) _ _ => head_scrutinee x
  | _ => t
  end.

(** Split on what the next step of a script returned. *)
Ltac script_step H :=
  lazymatch type of H with
  | ?lhs = _ =>
      let y := head_scrutinee lhs in
      lazymatch y with
      | lhs => fail
      | _ => destruct y eqn:?; lazy beta iota zeta in H
      end
  end.

Ltac script_end H :=
  injection H as <- <- <-.

(** Stage "select" touches the session only when it ends in a rerun,
    and then it has stored a project and moved to stage "data". *)
Lemma stage_select_session (ui : widgets) (s s' : session) (w w' : world)
    (o : outcome unit) :
  select_stage ui s w = (o, s', w') ->
  (o <> Rerun /\ s' = s)
  \/ (o = Rerun
      /\ button ui "Load Merge Requests" = true
      /\ exists i,
           s' = {| stage := Some "data"; use_cached := use_cached s;
                   project_id := Some i |}).
Proof.
  unfold stage_select, sbind, remote, lookup, sret, sfail, rerun,
    set_project_id, set_stage.
  intros H. lazy beta iota zeta in H.
  repeat script_step H; script_end H;
    try (left; split; [discriminate | reflexivity]).
  all: right; split; [reflexivity|]; split; [reflexivity|];
    eexists; reflexivity.
Qed.

(** Stage "data" never touches the session and never asks for a
    rerun. *)
Lemma stage_data_session (s s' : session) (w w' : world)
    (o : outcome (list App.row)) :
  data_stage s w = (o, s', w') -> o <> Rerun /\ s' = s.
Proof.
  unfold stage_data, fresh_table, sbind, get_attr, load_cached_data,
    save_cached_data, remote, sret.
  intros H. lazy beta iota zeta in H.
  repeat script_step H; script_end H; split; (discriminate || reflexivity).
Qed.

(** Reduce a run whose stage is known by [E]. *)
Ltac run_reduce E :=
  unfold run, sbind, ensure_stage, get_attr, sret;
  repeat progress
    (rewrite ?E; lazy beta iota zeta; cbn [String.eqb Ascii.eqb Bool.eqb]).

(** A run that starts in stage "init" is stage "init" alone. *)
Lemma run_from_init (ui : widgets) (s : session) (w : world) :
  stage s = Some "init" ->
  run_script ui s w
  = match init_stage ui s w with
    | (Done _, s1, w1) => (Done None, s1, w1)
    | (Failed f, s1, w1) => (Failed f, s1, w1)
    | (Rerun, s1, w1) => (Rerun, s1, w1)
    end.
Proof.
  intros E. run_reduce E.
  rewrite stage_init_eq. unfold init_end.
  destruct (read_file CACHE_META_FILE w) as [[df | last_run]|];
    [reflexivity | |].
  - destruct (truthy last_run && path_exists read_file CACHE_DATA_FILE w).
    + destruct (fromisoformat_ok _); [|reflexivity].
      destruct (button ui "Continue"); [reflexivity|].
      cbn [stage]. now run_reduce E.
    + destruct (button ui "Continue"); [reflexivity|].
      cbn [stage]. now run_reduce E.
  - destruct (button ui "Continue"); [reflexivity|].
    cbn [stage]. now run_reduce E.
Qed.

(** A run that starts without a stage starts in stage "init". *)
Lemma run_from_nothing (ui : widgets) (s : session) (w : world) :
  stage s = None ->
  run_script ui s w
  = run_script ui
      {| stage := Some "init"; use_cached := use_cached s;
         project_id := project_id s |} w.
Proof.
  intros E. unfold run, sbind, ensure_stage, set_stage.
  rewrite E. reflexivity.
Qed.

(** A run that starts in stage "select" is stage "select" alone. *)
Lemma run_from_select (ui : widgets) (s : session) (w : world) :
  stage s = Some "select" ->
  run_script ui s w
  = match select_stage ui s w with
    | (Done _, s1, w1) => (Done None, s1, w1)
    | (Failed f, s1, w1) => (Failed f, s1, w1)
    | (Rerun, s1, w1) => (Rerun, s1, w1)
    end.
Proof.
  intros E. run_reduce E.
  destruct (select_stage ui s w) as [[o1 s1] w1] eqn:S.
  destruct (stage_select_session _ _ _ S) as [[_ ->] | (-> & _ & i & ->)];
    [|reflexivity].
  destruct o1; [|reflexivity|reflexivity]. now run_reduce E.
Qed.

(** A run that starts in stage "data" is stage "data" alone. *)
Lemma run_from_data (ui : widgets) (s : session) (w : world) :
  stage s = Some "data" ->
  run_script ui s w
  = match data_stage s w with
    | (Done df, s1, w1) => (Done (Some df), s1, w1)
    | (Failed f, s1, w1) => (Failed f, s1, w1)
    | (Rerun, s1, w1) => (Rerun, s1, w1)
    end.
Proof.
  intros E. run_reduce E.
  destruct (data_stage s w) as [[o1 s1] w1]. now destruct o1.
Qed.

(** X21.  Stage "init" decides [use_cached] from the cache alone when
    there is no usable cache: without a metadata file, without a
    non-empty ["last_run"] in it, or without the data file,
    [use_cached] becomes [False] whatever the radio returns.  With both
    files and a well-formed timestamp it is what the radio says.  The
    stage moves to "select", by a rerun, exactly when "Continue" is
    clicked; the world and the stored project are not touched. *)
Theorem init_stage_decides_use_cached
    (ui : widgets) (s : session) (w : world) :
  stage s = None \/ stage s = Some "init" ->
  let final (cached : bool) :=
    (if button ui "Continue" then Rerun else Done None,
     {| stage := Some (if button ui "Continue" then "select" else "init");
        use_cached := Some cached;
        project_id := project_id s |},
     w) in
  (read_file CACHE_META_FILE w = None
   \/ read_file CACHE_META_FILE w = Some (Json None)
   \/ read_file CACHE_META_FILE w = Some (Json (Some ""))
   \/ ((exists last_run,
          read_file CACHE_META_FILE w = Some (Json last_run))
       /\ read_file CACHE_DATA_FILE w = None) ->
   run_script ui s w = final false)
  /\ (forall last_run f,
        read_file CACHE_META_FILE w = Some (Json (Some last_run)) ->
        last_run <> "" ->
        read_file CACHE_DATA_FILE w = Some f ->
        fromisoformat_ok last_run = true ->
        run_script ui s w
        = final (String.eqb
                   (radio ui "Choose an option"
                      ["Load previous data"; "Re-run"])
                   "Load previous data")).
Proof.
  intros Hs final.
  assert (R : run_script ui s w
              = match init_stage ui
                        {| stage := Some "init"; use_cached := use_cached s;
                           project_id := project_id s |} w with
                | (Done _, s1, w1) => (Done None, s1, w1)
                | (Failed f, s1, w1) => (Failed f, s1, w1)
                | (Rerun, s1, w1) => (Rerun, s1, w1)
                end).
  { destruct Hs as [E | E].
    - rewrite (run_from_nothing ui s w E). now apply run_from_init.
    - rewrite (run_from_init ui s w E). now destruct s as [st uc pid];
        cbn in E; subst st. }
  rewrite R, stage_init_eq. unfold init_end, final, path_exists.
  cbn [stage project_id]. split.
  - intros [E | [E | [E | [(lr & E) D]]]]; rewrite ?E, ?D;
      cbn [truthy Py.truthy_str String.eqb negb andb];
      rewrite ?andb_false_r;
      destruct (button ui "Continue"); reflexivity.
  - intros last_run f E N D F. rewrite E, D.
    unfold truthy. rewrite (AgeProperties.truthy_str_some N), F.
    cbn [andb]. destruct (button ui "Continue"); reflexivity.
Qed.

(** X23.  A run in stage "data" that uses the cache reads the data file
    and nothing else: it shows the pickled table, raises when the file
    is missing or is not a pickle, and in every case leaves the world
    and the session as they were: no request is made and nothing is
    written, whatever the widgets return. *)
Theorem cached_run_reads_only_the_cache
    (ui : widgets) (s : session) (w : world) :
  stage s = Some "data" -> use_cached s = Some true ->
  run_script ui s w
  = match read_file CACHE_DATA_FILE w with
    | Some (Pickle df) => (Done (Some df), s, w)
    | Some (Json _) => (Failed DecodeError, s, w)
    | None => (Failed FileNotFoundError, s, w)
    end.
Proof.
  intros E C. rewrite (run_from_data ui s w E).
  unfold stage_data, sbind, get_attr, load_cached_data. rewrite C.
  now destruct (read_file CACHE_DATA_FILE w) as [[df | l]|].
Qed.

(** X24.  A fresh run in stage "data" saves what it shows.  When the
    fetch returns a table, the run shows it and leaves it in the cache:
    loading gives it back and a later run that uses the cache shows the
    same table.  When the fetch raises, the run raises the same error
    and writes nothing. *)
Theorem fresh_run_saves_what_it_shows
    (ui ui' : widgets) (s : session) (w : world) (pid : Z) :
  (forall p f w, read_file p (write_file p f w) = Some f) ->
  (forall p q f w,
     p <> q -> read_file q (write_file p f w) = read_file q w) ->
  stage s = Some "data" -> use_cached s = Some false ->
  project_id s = Some pid ->
  match App.fetch_rows session_get parse clock (th cfg) (client cfg) pid
          (fetch_mr_states cfg) w with
  | (Ok df, w1) =>
      exists w2,
        run_script ui s w = (Done (Some df), s, w2)
        /\ load_cached_data read_file s w2 = (Done df, s, w2)
        /\ get_last_run_time read_file s w2
           = (Done (Some (isoformat
                            (clock (write_file CACHE_DATA_FILE
                                      (Pickle df) w1)))), s, w2)
        /\ (let s2 := {| stage := Some "data"; use_cached := Some true;
                         project_id := project_id s |} in
            run_script ui' s2 w2 = (Done (Some df), s2, w2))
  | (Raise e, w1) => run_script ui s w = (Failed (PyExn e), s, w1)
  end.
Proof.
  intros Same Other E C P. rewrite (run_from_data ui s w E).
  unfold stage_data, fresh_table, sbind, get_attr, remote. rewrite C, P.
  destruct (App.fetch_rows session_get parse clock (th cfg) (client cfg) pid
              (fetch_mr_states cfg) w) as [[df | e] w1]; [|reflexivity].
  assert (N : CACHE_META_FILE <> CACHE_DATA_FILE) by discriminate.
  eexists. unfold save_cached_data, sret. split; [reflexivity|].
  unfold load_cached_data, get_last_run_time.
  rewrite (Other _ _ _ _ N), !Same.
  split; [reflexivity|]. split; [reflexivity|].
  cbn zeta. rewrite run_from_data by reflexivity.
  unfold stage_data, sbind, get_attr, load_cached_data. cbn [use_cached].
  rewrite (Other _ _ _ _ N), Same. reflexivity.
Qed.

(** Stage "init" stays or moves on to "select" with [use_cached] set;
    it never misses an attribute. *)
Lemma stage_init_outcomes (ui : widgets) (s s' : session) (w w' : world)
    (o : outcome unit) :
  stage s = Some "init" ->
  init_stage ui s w = (o, s', w') ->
  (o <> Rerun /\ o <> Failed AttributeError /\ stage s' = Some "init")
  \/ (o = Rerun /\ stage s' = Some "select" /\ use_cached s' <> None).
Proof.
  intros E. rewrite stage_init_eq. unfold init_end. intros H.
  repeat script_step H; script_end H; cbn [stage use_cached];
    try (left; repeat split; (discriminate || assumption));
    right; repeat split; discriminate.
Qed.

Lemma stage_select_no_attribute_error (ui : widgets) (s s' : session)
    (w w' : world) (o : outcome unit) :
  select_stage ui s w = (o, s', w') -> o <> Failed AttributeError.
Proof.
  unfold stage_select, sbind, remote, lookup, sret, sfail, rerun,
    set_project_id, set_stage.
  intros H. lazy beta iota zeta in H.
  repeat script_step H; script_end H; discriminate.
Qed.

Lemma stage_data_no_attribute_error (s s' : session) (w w' : world)
    (o : outcome (list App.row)) :
  use_cached s <> None -> project_id s <> None ->
  data_stage s w = (o, s', w') -> o <> Failed AttributeError.
Proof.
  unfold stage_data, fresh_table, sbind, get_attr, load_cached_data,
    save_cached_data, remote, sret.
  intros C P H. lazy beta iota zeta in H.
  repeat script_step H; script_end H; try discriminate; contradiction.
Qed.

(** Close the goals about the order of two stages. *)
Ltac order_done :=
  repeat split;
  try discriminate; try lia; try assumption; try congruence;
  try (intros ?; lia); try (intros ?; contradiction).

(** X22.  A run keeps the order of the stages.  From a session whose
    attributes fit its stage, a run ends in a session whose attributes
    fit its stage: it never fails on a missing attribute.  The stage
    stays or advances by one step, from "init" to "select" to "data",
    never back; it advances exactly when the run ends in a rerun. *)
Theorem run_keeps_the_stage_order
    (ui : widgets) (s s' : session) (w w' : world)
    (o : outcome (option (list App.row))) :
  well_formed s ->
  run_script ui s w = (o, s', w') ->
  well_formed s'
  /\ stage s' <> None
  /\ (rank s <= rank s' <= S (rank s))%nat
  /\ (o = Rerun <-> (rank s < rank s')%nat)
  /\ o <> Failed AttributeError.
Proof.
  unfold well_formed, rank. intros W H.
  assert (I : forall s0,
             stage s0 = Some "init" ->
             run_script ui s0 w = (o, s', w') ->
             (o <> Rerun /\ o <> Failed AttributeError
              /\ stage s' = Some "init")
             \/ (o = Rerun /\ stage s' = Some "select"
                 /\ use_cached s' <> None)).
  { intros s0 E0 H0. rewrite (run_from_init ui s0 w E0) in H0.
    destruct (init_stage ui s0 w) as [[o1 s1] w1] eqn:S1.
    destruct (stage_init_outcomes _ _ _ E0 S1) as [(R & A & E1) | (R & E1 & C)].
    - left. destruct o1; script_end H0;
        repeat split; (discriminate || assumption || congruence).
    - right. subst o1. script_end H0. repeat split; assumption. }
  destruct (stage s) as [st|] eqn:E.
  - destruct (String.eqb_spec st "init") as [-> | Ni].
    + destruct (I s E H) as [(R & A & E1) | (R & E1 & C)]; rewrite E1;
        cbn [String.eqb Ascii.eqb Bool.eqb]; order_done.
    + destruct (String.eqb_spec st "select") as [-> | Ns].
      * rewrite (run_from_select ui s w E) in H.
        destruct (select_stage ui s w) as [[o1 s1] w1] eqn:S1.
        pose proof (stage_select_no_attribute_error _ _ _ S1) as A.
        destruct (stage_select_session _ _ _ S1)
          as [[R ->] | (-> & _ & i & ->)].
        -- destruct o1; script_end H; rewrite E;
             cbn [String.eqb Ascii.eqb Bool.eqb]; order_done.
        -- script_end H. cbn [stage use_cached project_id].
           cbn [String.eqb Ascii.eqb Bool.eqb]. order_done.
      * destruct (String.eqb_spec st "data") as [-> | Nd]; [|contradiction].
        destruct W as [C P]. rewrite (run_from_data ui s w E) in H.
        destruct (data_stage s w) as [[o1 s1] w1] eqn:S1.
        pose proof (@stage_data_no_attribute_error s s1 w w1 o1 C P S1) as A.
        destruct (@stage_data_session s s1 w w1 o1 S1) as [R ->].
        destruct o1; script_end H; rewrite E;
          cbn [String.eqb Ascii.eqb Bool.eqb]; order_done.
  - rewrite (run_from_nothing ui s w E) in H.
    pose proof (fun e => I _ e H) as I0. cbn [stage] in I0.
    destruct (I0 eq_refl) as [(R & A & E1) | (R & E1 & C)]; rewrite E1;
      cbn [String.eqb Ascii.eqb Bool.eqb]; order_done.
Qed.

(** X25.  When stage "select" hands over to stage "data", the project it
    has stored is one the server listed: the last request of the stage
    was the listing of the projects of the target group, and the stored
    id is the id of an entity of that listing that bears the name
    selected in the "Project" box.  The choice of [use_cached] is
    kept. *)
Theorem select_stores_a_listed_project
    (ui : widgets) (s s' : session) (w w' : world) :
  select_stage ui s w = (Rerun, s', w') ->
  exists (target : Z) (w1 : world) (projects : list Named.t) (p : Named.t),
    get_projects session_get_named (client cfg) target w1 = (Ok projects, w')
    /\ In p projects
    /\ selectbox ui "Project" (Dict.keys (Dict.of_named projects))
       = Some (Named.name p)
    /\ s' = {| stage := Some "data"; use_cached := use_cached s;
               project_id := Some (Named.id p) |}.
Proof.
  unfold stage_select, sbind, remote, lookup, sret, sfail, rerun,
    set_project_id, set_stage.
  intros H. lazy beta iota zeta in H.
  repeat script_step H; try discriminate H; injection H as <- <-.
  all: match goal with
       | Hp : get_projects _ _ ?t ?w1 = (Ok ?ps, _),
         Hg : Dict.get (Dict.of_named ?ps) _ = Some _ |- _ =>
           destruct (DictProperties.get_of_named_listed _ _ Hg)
             as (p & I & <- & <-);
           exists t, w1, ps, p; repeat split; assumption
       end.
Qed.

(** Use what a select box that selects from its options returned. *)
Ltac selected Hui :=
  repeat match goal with
    | Hs : selectbox ?ui ?l ?opts = _ |- _ =>
        let K := fresh "K" in
        pose proof (Hui l opts) as K; rewrite Hs in K; clear Hs
    end.

(** X26.  With select boxes that select from their options, stage
    "select" raises [KeyError] only on an empty listing: the listing of
    the groups was empty, or "Load Merge Requests" was clicked and the
    listing of the projects was empty.  That listing was the last
    request made, and the session is as it was.  An empty listing of
    subgroups never raises. *)
Theorem select_key_error_means_empty_listing
    (ui : widgets) (s s' : session) (w w' : world) :
  selects_from_options ui ->
  select_stage ui s w = (Failed KeyError, s', w') ->
  s' = s
  /\ (get_top_level_groups session_get_named (client cfg) w = (Ok [], w')
      \/ (button ui "Load Merge Requests" = true
          /\ exists (target : Z) (w1 : world),
               get_projects session_get_named (client cfg) target w1
               = (Ok [], w'))).
Proof.
  intros Hui.
  unfold stage_select, sbind, remote, lookup, sret, sfail, rerun,
    set_project_id, set_stage.
  intros H. lazy beta iota zeta in H.
  repeat script_step H; try discriminate H; injection H as <- <-.
  all: split; [reflexivity|]; selected Hui.
  all: try (exfalso;
            match goal with
            | K : In ?n (Dict.keys (Dict.of_named ?gs)),
              Hg : Dict.get (Dict.of_named ?gs) ?n = None |- _ =>
                exact (DictProperties.get_of_named_offered _ _ K Hg)
            end).
  all: match goal with
       | K : Dict.keys (Dict.of_named _) = [] |- _ =>
           apply DictProperties.keys_of_named_nil in K;
           try discriminate K; subst
       end.
  all: try (left; reflexivity).
  all: right; split; [reflexivity|]; eexists _, _; eassumption.
Qed.

(** X27.  A token that sees no group stops the dashboard in stage
    "select": with select boxes that select from their options, a run
    whose listing of the groups is empty raises [KeyError] right after
    that request; the session stays in stage "select", so every later
    run does the same as long as the listing is empty. *)
Theorem no_group_raises_key_error
    (ui : widgets) (s : session) (w w1 : world) :
  selects_from_options ui ->
  stage s = Some "select" ->
  get_top_level_groups session_get_named (client cfg) w = (Ok [], w1) ->
  run_script ui s w = (Failed KeyError, s, w1).
Proof.
  intros Hui E G. rewrite (run_from_select ui s w E).
  unfold stage_select, sbind, remote, lookup. rewrite G.
  cbn [Dict.of_named fold_left Dict.keys map].
  pose proof (Hui "Group" []) as K.
  destruct (selectbox ui "Group" []) as [n|]; [destruct K | reflexivity].
Qed.

End Script.

Local Abbreviation disk_run :=
  (run Disk.session_get Disk.session_get_named Iso8601.parse Disk.clock
     Disk.read_file Disk.write_file Disk.isoformat Disk.fromisoformat_ok
     Fixture.sample_config).
Local Abbreviation disk_select :=
  (stage_select Disk.session_get_named Fixture.sample_config).

Lemma clicking_selects_from_options : selects_from_options Fixture.clicking.
Proof. intros label [|x l]; cbn; auto. Qed.

Lemma init_stage_decides_use_cached_witness :
  (stage empty_session = None \/ stage empty_session = Some "init")
  /\ disk_run Fixture.clicking empty_session Fixture.blank_disk
     = (Rerun, Fixture.after_init, Fixture.blank_disk)
  /\ disk_run Fixture.clicking empty_session Fixture.cached_disk
     = (Rerun,
        {| stage := Some "select"; use_cached := Some true;
           project_id := None |},
        Fixture.cached_disk).
Proof.
  split; [left; reflexivity|]. split.
  - apply (proj1 (@init_stage_decides_use_cached Disk.world Disk.session_get
                    Disk.session_get_named Iso8601.parse Disk.clock
                    Disk.read_file Disk.write_file Disk.isoformat
                    Disk.fromisoformat_ok Fixture.sample_config
                    Fixture.clicking empty_session Fixture.blank_disk
                    (or_introl eq_refl))).
    left. reflexivity.
  - apply (proj2 (@init_stage_decides_use_cached Disk.world Disk.session_get
                    Disk.session_get_named Iso8601.parse Disk.clock
                    Disk.read_file Disk.write_file Disk.isoformat
                    Disk.fromisoformat_ok Fixture.sample_config
                    Fixture.clicking empty_session Fixture.cached_disk
                    (or_introl eq_refl))
             "2024-03-01T00:00:00" (Pickle Fixture.one_row_table));
      [reflexivity | discriminate | reflexivity | vm_compute; reflexivity].
Defined.

Lemma run_keeps_the_stage_order_witness :
  well_formed empty_session
  /\ disk_run Fixture.clicking empty_session Fixture.blank_disk
     = (Rerun, Fixture.after_init, Fixture.blank_disk)
  /\ well_formed Fixture.after_init
  /\ stage Fixture.after_init <> None
  /\ (rank empty_session <= rank Fixture.after_init
      <= S (rank empty_session))%nat
  /\ (@Rerun (option (list App.row)) = Rerun
      <-> (rank empty_session < rank Fixture.after_init)%nat)
  /\ @Rerun (option (list App.row)) <> Failed AttributeError.
Proof.
  split; [exact I|]. split; [reflexivity|].
  exact (@run_keeps_the_stage_order Disk.world Disk.session_get
           Disk.session_get_named Iso8601.parse Disk.clock Disk.read_file
           Disk.write_file Disk.isoformat Disk.fromisoformat_ok
           Fixture.sample_config Fixture.clicking empty_session
           Fixture.after_init Fixture.blank_disk Fixture.blank_disk Rerun
           I eq_refl).
Defined.

Lemma cached_run_reads_only_the_cache_witness :
  stage Fixture.cached_session = Some "data"
  /\ use_cached Fixture.cached_session = Some true
  /\ disk_run Fixture.clicking Fixture.cached_session Fixture.cached_disk
     = (Done (Some Fixture.one_row_table), Fixture.cached_session,
        Fixture.cached_disk).
Proof.
  split; [reflexivity|]. split; [reflexivity|].
  exact (@cached_run_reads_only_the_cache Disk.world Disk.session_get
           Disk.session_get_named Iso8601.parse Disk.clock Disk.read_file
           Disk.write_file Disk.isoformat Disk.fromisoformat_ok
           Fixture.sample_config Fixture.clicking Fixture.cached_session
           Fixture.cached_disk eq_refl eq_refl).
Defined.

Lemma fresh_run_saves_what_it_shows_witness :
  stage Fixture.fresh_session = Some "data"
  /\ use_cached Fixture.fresh_session = Some false
  /\ project_id Fixture.fresh_session = Some 42%Z
  /\ App.fetch_rows Disk.session_get Iso8601.parse Disk.clock
       (th Fixture.sample_config) (client Fixture.sample_config) 42
       (fetch_mr_states Fixture.sample_config) Fixture.fresh_disk
     = (Ok Fixture.one_row_table, Fixture.blank_disk)
  /\ exists w2,
       disk_run Fixture.idle Fixture.fresh_session Fixture.fresh_disk
       = (Done (Some Fixture.one_row_table), Fixture.fresh_session, w2)
       /\ load_cached_data Disk.read_file Fixture.fresh_session w2
          = (Done Fixture.one_row_table, Fixture.fresh_session, w2)
       /\ get_last_run_time Disk.read_file Fixture.fresh_session w2
          = (Done (Some "2024-03-01T00:00:00"), Fixture.fresh_session, w2)
       /\ disk_run Fixture.clicking Fixture.cached_session w2
          = (Done (Some Fixture.one_row_table), Fixture.cached_session, w2).
Proof.
  assert (F : App.fetch_rows Disk.session_get Iso8601.parse Disk.clock
                (th Fixture.sample_config) (client Fixture.sample_config) 42
                (fetch_mr_states Fixture.sample_config) Fixture.fresh_disk
              = (Ok Fixture.one_row_table, Fixture.blank_disk))
    by (vm_compute; reflexivity).
  split; [reflexivity|]. split; [reflexivity|]. split; [reflexivity|].
  split; [exact F|].
  pose proof (@fresh_run_saves_what_it_shows Disk.world Disk.session_get
                Disk.session_get_named Iso8601.parse Disk.clock
                Disk.read_file Disk.write_file Disk.isoformat
                Disk.fromisoformat_ok Fixture.sample_config Fixture.idle
                Fixture.clicking Fixture.fresh_session Fixture.fresh_disk 42
                CacheProperties.disk_read_write_same
                CacheProperties.disk_read_write_other
                eq_refl eq_refl eq_refl) as H.
  rewrite F in H. exact H.
Defined.

Lemma select_stores_a_listed_project_witness :
  disk_select Fixture.clicking Fixture.select_session Fixture.select_disk
  = (Rerun, Fixture.fresh_session, Fixture.blank_disk)
  /\ exists (target : Z) (w1 : Disk.world) (projects : list Named.t)
       (p : Named.t),
       get_projects Disk.session_get_named (client Fixture.sample_config)
         target w1 = (Ok projects, Fixture.blank_disk)
       /\ In p projects
       /\ selectbox Fixture.clicking "Project"
            (Dict.keys (Dict.of_named projects)) = Some (Named.name p)
       /\ Fixture.fresh_session
          = {| stage := Some "data";
               use_cached := use_cached Fixture.select_session;
               project_id := Some (Named.id p) |}.
Proof.
  assert (H : disk_select Fixture.clicking Fixture.select_session
                Fixture.select_disk
              = (Rerun, Fixture.fresh_session, Fixture.blank_disk))
    by (vm_compute; reflexivity).
  split; [exact H|].
  exact (@select_stores_a_listed_project Disk.world Disk.session_get_named
           Fixture.sample_config Fixture.clicking Fixture.select_session
           Fixture.fresh_session Fixture.select_disk Fixture.blank_disk H).
Defined.

Lemma select_key_error_means_empty_listing_witness :
  selects_from_options Fixture.clicking
  /\ disk_select Fixture.clicking Fixture.select_session
       Fixture.no_groups_disk
     = (Failed KeyError, Fixture.select_session, Fixture.projects_disk)
  /\ Fixture.select_session = Fixture.select_session
  /\ (get_top_level_groups Disk.session_get_named
        (client Fixture.sample_config) Fixture.no_groups_disk
      = (Ok [], Fixture.projects_disk)
      \/ (button Fixture.clicking "Load Merge Requests" = true
          /\ exists (target : Z) (w1 : Disk.world),
               get_projects Disk.session_get_named
                 (client Fixture.sample_config) target w1
               = (Ok [], Fixture.projects_disk))).
Proof.
  assert (H : disk_select Fixture.clicking Fixture.select_session
                Fixture.no_groups_disk
              = (Failed KeyError, Fixture.select_session,
                 Fixture.projects_disk))
    by (vm_compute; reflexivity).
  split; [exact clicking_selects_from_options|]. split; [exact H|].
  exact (@select_key_error_means_empty_listing Disk.world
           Disk.session_get_named Fixture.sample_config Fixture.clicking
           Fixture.select_session Fixture.select_session
           Fixture.no_groups_disk Fixture.projects_disk
           clicking_selects_from_options H).
Defined.

Lemma no_group_raises_key_error_witness :
  selects_from_options Fixture.clicking
  /\ stage Fixture.select_session = Some "select"
  /\ get_top_level_groups Disk.session_get_named
       (client Fixture.sample_config) Fixture.no_groups_disk
     = (Ok [], Fixture.projects_disk)
  /\ disk_run Fixture.clicking Fixture.select_session Fixture.no_groups_disk
     = (Failed KeyError, Fixture.select_session, Fixture.projects_disk).
Proof.
  split; [exact clicking_selects_from_options|].
  split; [reflexivity|]. split; [reflexivity|].
  exact (@no_group_raises_key_error Disk.world Disk.session_get
           Disk.session_get_named Iso8601.parse Disk.clock Disk.read_file
           Disk.write_file Disk.isoformat Disk.fromisoformat_ok
           Fixture.sample_config Fixture.clicking Fixture.select_session
           Fixture.no_groups_disk Fixture.projects_disk
           clicking_selects_from_options eq_refl eq_refl).
Defined.

End StageProperties.
